(** * pyconnectome.utils.filetools: a shallow embedding and its properties

    The module [pyconnectome/utils/filetools.py] holds six functions that
    convert tractograms (TRK, VTK polydata) to TCK, slice a 4D image and
    drive external tools (MRtrix, FSL).  Each function is embedded below
    as a computation in a state-and-exception monad over a [World]: a file
    system whose files carry typed contents and the trace of the external
    actions performed so far.

    Conventions of the model:
    - Python [str] is [string]; Python [int] is [Z];
    - coordinates and voxel values in memory are exact numbers in [Z];
      what a tractogram file stores is a 32-bit float, [to_float32] of
      the number;
    - the external programs, the [FSLWrapper] helper, [glob.glob], the
      work of [tractconverter], what [nibabel] does when it builds and
      saves a NIfTI image, and the errors whose class is decided inside
      a library are fields of the class [ExternalTools]: every theorem
      holds for all their behaviours. *)

From Stdlib Require Import ZArith String Ascii List Lia DecimalString.
From stdpp Require Import base option list gmap strings.

Local Open Scope Z_scope.
Local Open Scope string_scope.

(** ** Python strings *)

Module Str.

(** [s[i:]] for an index [0 <= i]. *)
Definition drop (i : nat) (s : string) : string :=
  substring i (String.length s - i) s.

(** [s[:i]] for an index [0 <= i]. *)
Definition take (i : nat) (s : string) : string :=
  substring 0 i s.

(** [s.endswith(suffix)]. *)
Definition endswith (s suffix : string) : bool :=
  let n := String.length s in
  let m := String.length suffix in
  (m <=? n)%nat && String.eqb (drop (n - m) s) suffix.

(** [s.startswith(p)]. *)
Definition startswith (s p : string) : bool := String.prefix p s.

(** [s.rfind(c)] for a one-character needle: the highest index holding
    [c], or [-1]. *)
Fixpoint rfind_from (c : ascii) (s : string) (pos : nat) (acc : Z) : Z :=
  match s with
  | EmptyString => acc
  | String a s' =>
      rfind_from c s' (S pos) (if Ascii.eqb a c then Z.of_nat pos else acc)
  end.

Definition rfind (c : ascii) (s : string) : Z := rfind_from c s 0 (-1).

(** [s.rstrip(c)] for a one-character set. *)
Fixpoint rstrip (c : ascii) (s : string) : string :=
  match s with
  | EmptyString => EmptyString
  | String a s' =>
      match rstrip c s' with
      | EmptyString => if Ascii.eqb a c then EmptyString else String a EmptyString
      | r => String a r
      end
  end.

(** [c * n]. *)
Fixpoint repeat (c : ascii) (n : nat) : string :=
  match n with
  | O => EmptyString
  | S n' => String c (repeat c n')
  end.

(** [s.split(sep)[0]] for a one-character separator: the text before
    the first [sep] (all of [s] when there is none). *)
Fixpoint split_head (sep : ascii) (s : string) : string :=
  match s with
  | EmptyString => EmptyString
  | String a s' =>
      if Ascii.eqb a sep then EmptyString else String a (split_head sep s')
  end.

(** ["%i" % n] and ["{0}".format(n)] for an [int]. *)
Definition of_int (n : Z) : string := NilZero.string_of_int (Z.to_int n).

End Str.

(** ** os.path (posixpath) *)

Module os_path.

Definition sep : ascii := "/"%char.

(** [posixpath.basename]: [i = p.rfind('/') + 1; return p[i:]]. *)
Definition basename (p : string) : string :=
  let i := Z.to_nat (Str.rfind sep p + 1) in
  Str.drop i p.

(** [posixpath.dirname]: [head = p[:i]]; trailing slashes are stripped
    unless [head] is made of slashes only. *)
Definition dirname (p : string) : string :=
  let i := Z.to_nat (Str.rfind sep p + 1) in
  let head := Str.take i p in
  if negb (String.eqb head "")
     && negb (String.eqb head (Str.repeat sep (String.length head)))
  then Str.rstrip sep head
  else head.

(** [posixpath.join(a, b)] with one extra component. *)
Definition join (a b : string) : string :=
  if Str.startswith b "/" then b
  else if String.eqb a "" || Str.endswith a "/" then a ++ b
  else a ++ "/" ++ b.

End os_path.

(** ** Numeric data: points, affines, arrays *)

Definition point : Type := Z * Z * Z.
Definition fiber : Type := list point.
Definition matrix : Type := list (list Z).

(** [numpy.diag(v)]: the square matrix with [v] on its diagonal. *)
Definition numpy_diag (v : list Z) : matrix :=
  imap (fun i x => <[i := x]> (replicate (length v) 0)) v.

(** Entry [(r, c)] of a matrix. *)
Definition entry (m : matrix) (r c : nat) : Z :=
  nth c (nth r m []) 0.

(** [nibabel.affines.apply_affine]: [rzs = aff[:-1, :-1]],
    [trans = aff[:-1, -1]], result [dot(pts, rzs.T) + trans], written out
    for a 4x4 affine and one 3D point. *)
Definition apply_affine (aff : matrix) (p : point) : point :=
  let '(x, y, z) := p in
  let row r := entry aff r 0 * x + entry aff r 1 * y + entry aff r 2 * z
               + entry aff r 3 in
  (row 0%nat, row 1%nat, row 2%nat).

(** A numpy array: its shape and its elements in row-major (C) order. *)
Record ndarray : Type := mk_ndarray {
  shape : list nat;
  elems : list Z
}.

(** An image: voxel array and affine. *)
Record Image : Type := mk_Image {
  get_data : ndarray;
  get_affine : matrix
}.

(** A nibabel tractogram: streamlines and the affine to RAS mm. *)
Record Tractogram : Type := mk_Tractogram {
  streamlines : list fiber;
  affine_to_rasmm : matrix
}.

(** [Tractogram.to_world]: the streamlines with the affine applied. *)
Definition to_world (t : Tractogram) : list fiber :=
  map (map (apply_affine (affine_to_rasmm t))) (streamlines t).

(** [numpy.array]-to-[ArraySequence]: [ArraySequence.append] returns at
    once on an element of size 0, so empty arrays are left out. *)
Definition nonempty (f : fiber) : bool :=
  match f with
  | [] => false
  | _ :: _ => true
  end.

Definition ArraySequence (arrays : list fiber) : list fiber :=
  List.filter nonempty arrays.

(** A number as a tractogram file stores it: a 32-bit float, here a
    finite value or an infinity. *)
Inductive float32 : Type :=
  | F32 (value : Z)
  | F32_inf (negative : bool).

(** Rounding an integer to the nearest 32-bit float, ties to even: up to
    [2^24] in magnitude every integer is kept; above, the 24 leading bits
    are; from [2^128] on the result is an infinity. *)
Definition to_float32 (x : Z) : float32 :=
  let a := Z.abs x in
  if (a <? 2 ^ 24)%Z then F32 x
  else
    let ulp := 2 ^ (Z.log2 a - 23) in
    let q := a / ulp in
    let r := a mod ulp in
    let half := ulp / 2 in
    let q' := if (r <? half)%Z then q
              else if (half <? r)%Z then q + 1
              else if Z.even q then q else q + 1 in
    let v := q' * ulp in
    if (2 ^ 128 <=? v)%Z then F32_inf (x <? 0)%Z
    else F32 (Z.sgn x * v).

Definition point32 : Type := float32 * float32 * float32.

Definition to_point32 (p : point) : point32 :=
  let '(x, y, z) := p in (to_float32 x, to_float32 y, to_float32 z).

(** The two streamline formats that [nibabel.streamlines] reads and
    writes. *)
Inductive tract_format : Type := FmtTRK | FmtTCK.

(** A tractogram file as nibabel sees it, on disk and once loaded: its
    format, a header dictionary and streamlines of 32-bit floats. *)
Record TractFile : Type := mk_TractFile {
  format : tract_format;
  header : gmap string string;
  file_streamlines : list (list point32)
}.

(** ** Exceptions and return values *)

Inductive exn : Type :=
  | ValueError (msg : string)
  | IndexError
  | OverflowError
  | CalledProcessError (returncode : Z) (cmd : list string)
  | OSError (msg : string)
  | LibraryError (origin : string).

Inductive result (A : Type) : Type :=
  | Ok (a : A)
  | Raise (e : exn).
Arguments Ok {A} a.
Arguments Raise {A} e.

(** What a Python function hands back: [None] or a [str]. *)
Inductive pyval : Type :=
  | PyNone
  | PyStr (s : string).

(** ** The world: file system and trace *)

Inductive Content : Type :=
  | CTract (t : TractFile)
  | CVtk (cells : list fiber)
  | CNifti (img : Image)
  | CRaw.

Record FS : Type := mk_FS {
  files : gmap string Content;
  dirs : gset string
}.

(** External actions, in the order they were asked for: [EvSubprocess]
    and [EvFSL] are calls of [subprocess.check_call] and of the FSL
    wrapper, [EvRead] and [EvWrite] calls of a reader or a writer of a
    library with the path they were given. *)
Inductive Event : Type :=
  | EvSubprocess (cmd : list string)
  | EvFSL (cmd : list string) (shfile : string)
  | EvMkdtemp (path : string)
  | EvRmtree (path : string)
  | EvRead (path : string)
  | EvWrite (path : string)
  | EvConvert (src dst : string).

Record World : Type := mk_World {
  fs : FS;
  trace : list Event
}.

Definition M (A : Type) : Type := World -> result A * World.

Definition ret {A} (a : A) : M A := fun w => (Ok a, w).

Definition raise {A} (e : exn) : M A := fun w => (Raise e, w).

Definition bind {A B} (m : M A) (k : A -> M B) : M B :=
  fun w =>
    match m w with
    | (Ok a, w') => k a w'
    | (Raise e, w') => (Raise e, w')
    end.

Declare Scope py_scope.
Delimit Scope py_scope with py.
Notation "x <- m ;; k" := (bind m (fun x => k))
  (at level 100, m at next level, right associativity) : py_scope.
Notation "m ;;; k" := (bind m (fun _ => k))
  (at level 100, right associativity) : py_scope.

(** [for x in xs: body(x)]. *)
Fixpoint for_each {A} (xs : list A) (body : A -> M unit) : M unit :=
  match xs with
  | [] => ret tt
  | x :: xs' => bind (body x) (fun _ => for_each xs' body)
  end.

(** [os.path.isfile]. *)
Definition isfile (f : FS) (p : string) : bool :=
  bool_decide (is_Some (files f !! p)).

Definition os_path_isfile (p : string) : M bool :=
  fun w => (Ok (isfile (fs w) p), w).

(** ** External collaborators

    Programs and helpers whose code is not part of the module.  They are
    taken as they come: any exit status, any effect on the file system. *)

Class ExternalTools : Type := {
  (** running a command line: [None] when no process was started,
      otherwise its exit status; and what it did to the file system *)
  spawn : list string -> FS -> option Z * FS;
  (** what [subprocess] raises when no process was started
      ([FileNotFoundError], [PermissionError], [ValueError] for an
      argument with a NUL byte, ...) *)
  spawn_error : list string -> exn;
  (** [FSLWrapper(cmd, shfile=...)()] of [pyconnectome.wrapper] *)
  FSLWrapper_call : list string -> string -> FS -> option exn * FS;
  (** [pyconnectome.DEFAULT_FSL_PATH] *)
  DEFAULT_FSL_PATH : string;
  (** [glob.glob]: the existing paths that match a pattern *)
  glob_glob : FS -> string -> list string;
  (** [tractconverter.TRK(path)]: opening a TRK file may fail *)
  tc_TRK : string -> FS -> option exn;
  (** [tractconverter.TCK.create(path, hdr=trk.hdr, anatFile=anat)] *)
  tc_TCK_create : string -> string -> string -> FS -> option exn * FS;
  (** [tractconverter.convert(trk, tck)] *)
  tc_convert : string -> string -> FS -> option exn * FS;
  (** [tempfile.gettempdir()] *)
  gettempdir : string;
  (** the names the random name generator of [tempfile] yields, in order *)
  candidate_names : list string;
  (** [nibabel.save(nibabel.Nifti1Image(array, affine), path)]: the file
      system it leaves, or the error of the constructor or of the writer
      (unknown extension, unsupported shape or affine, ...); which files
      it writes for a path is nibabel's choice *)
  nifti_save : Image -> string -> FS -> result FS;
  (** what [nibabel.streamlines.load] raises for the file at a path that
      holds no tractogram *)
  streamlines_load_error : string -> exn;
  (** the header nibabel writes in front of the streamlines of a new TCK
      file *)
  tck_header : list (list point32) -> gmap string string;
  (** what numpy raises for an index that does not fit a C [long] *)
  intp_error : Z -> exn
}.

(** ** Library calls *)

Definition from_outcome (o : option exn) : result unit :=
  match o with
  | None => Ok tt
  | Some e => Raise e
  end.

(** A path can be written when it is not a directory and its parent
    directory exists ([""] is the current directory). *)
Definition can_write (f : FS) (p : string) : bool :=
  negb (bool_decide (p ∈ dirs f))
  && (String.eqb (os_path.dirname p) ""
      || bool_decide (os_path.dirname p ∈ dirs f)).

Definition put_file (p : string) (c : Content) (f : FS) : FS :=
  {| files := <[p := c]> (files f); dirs := dirs f |}.

Definition write_file (p : string) (c : Content) : M unit :=
  fun w =>
    let w' := {| fs := fs w; trace := trace w ++ [EvWrite p] |} in
    if can_write (fs w) p
    then (Ok tt, {| fs := put_file p c (fs w); trace := trace w' |})
    else (Raise (OSError p), w').

Definition read_file (p : string) : M Content :=
  fun w =>
    let w' := {| fs := fs w; trace := trace w ++ [EvRead p] |} in
    match files (fs w) !! p with
    | Some c => (Ok c, w')
    | None => (Raise (OSError p), w')
    end.

(** [nibabel.streamlines.load]: the format is detected, a TRK and a TCK
    file both load. *)
Definition nibabel_streamlines_load `{ExternalTools} (p : string)
    : M TractFile :=
  (c <- read_file p ;;
   match c with
   | CTract t => ret t
   | _ => raise (streamlines_load_error p)
   end)%py.

(** [trk.save(path)]: the loaded object is written in its own format. *)
Definition TractFile_save (t : TractFile) (p : string) : M unit :=
  write_file p (CTract t).

(** [trk.header[key] = value]. *)
Definition set_header (t : TractFile) (key value : string) : TractFile :=
  {| format := format t;
     header := <[key := value]> (header t);
     file_streamlines := file_streamlines t |}.

(** [nibabel.load]. *)
Definition nibabel_load (p : string) : M Image :=
  (c <- read_file p ;;
   match c with
   | CNifti img => ret img
   | _ => raise (LibraryError "nibabel.load")
   end)%py.

(** [nibabel.save(nibabel.Nifti1Image(array, affine), path)]: a call
    that raises has written nothing. *)
Definition nibabel_save `{ExternalTools} (img : Image) (p : string) : M unit :=
  fun w =>
    let w' := {| fs := fs w; trace := trace w ++ [EvWrite p] |} in
    match nifti_save img p (fs w) with
    | Ok f' => (Ok tt, {| fs := f'; trace := trace w' |})
    | Raise e => (Raise e, w')
    end.

(** What a TCK file holds for a tractogram: its points in world (RAS mm)
    coordinates, as 32-bit floats. *)
Definition tck_points (t : Tractogram) : list (list point32) :=
  map (map to_point32) (to_world t).

(** [nibabel.streamlines.TckFile(tractogram=t).save(path)]. *)
Definition TckFile_save `{ExternalTools} (t : Tractogram) (p : string)
    : M unit :=
  write_file p (CTract {| format := FmtTCK;
                          header := tck_header (tck_points t);
                          file_streamlines := tck_points t |}).

(** [vtkPolyDataReader]: [SetFileName], [Update], [GetOutput].  The reader
    does not raise: what is not a polydata file yields an empty output. *)
Definition vtkPolyDataReader_read (p : string) : M (list fiber) :=
  fun w =>
    let w' := {| fs := fs w; trace := trace w ++ [EvRead p] |} in
    match files (fs w) !! p with
    | Some (CVtk cells) => (Ok cells, w')
    | _ => (Ok [], w')
    end.

(** [d] holds [p]. *)
Definition under (d p : string) : bool := String.prefix (d ++ "/") p.

Definition exists_path (f : FS) (p : string) : bool :=
  isfile f p || bool_decide (p ∈ dirs f).

(** [tempfile.mkdtemp(prefix=..., dir=...)]: the first candidate name
    that does not exist yet in [dir] is created. *)
Definition tempfile_mkdtemp `{ExternalTools} (prefix : string)
    (dir : option string) : M string :=
  fun w =>
    let d := default gettempdir dir in
    if negb (bool_decide (d ∈ dirs (fs w)))
    then (Raise (OSError d), w)
    else
      match find (fun n => negb (exists_path (fs w) (os_path.join d (prefix ++ n))))
                 candidate_names with
      | Some n =>
          let p := os_path.join d (prefix ++ n) in
          (Ok p, {| fs := {| files := files (fs w); dirs := {[p]} ∪ dirs (fs w) |};
                    trace := trace w ++ [EvMkdtemp p] |})
      | None => (Raise (OSError d), w)
      end.

Definition remove_tree (d : string) (f : FS) : FS :=
  {| files := filter (fun kv => under d kv.1 = false) (files f);
     dirs := filter (fun p => p ≠ d ∧ under d p = false) (dirs f) |}.

(** [shutil.rmtree]. *)
Definition shutil_rmtree (d : string) : M unit :=
  fun w =>
    let w' := {| fs := fs w; trace := trace w ++ [EvRmtree d] |} in
    if bool_decide (d ∈ dirs (fs w))
    then (Ok tt, {| fs := remove_tree d (fs w); trace := trace w' |})
    else (Raise (OSError d), w').

(** [subprocess.check_call(cmd)]: the call is recorded; whether a process
    ran, and with which status, is the environment's. *)
Definition subprocess_check_call `{ExternalTools} (cmd : list string) : M unit :=
  fun w =>
    let '(status, f') := spawn cmd (fs w) in
    let w' := {| fs := f'; trace := trace w ++ [EvSubprocess cmd] |} in
    match status with
    | None => (Raise (spawn_error cmd), w')
    | Some 0 => (Ok tt, w')
    | Some rc => (Raise (CalledProcessError rc cmd), w')
    end.

(** [FSLWrapper(cmd, shfile=fslconfig)()]. *)
Definition FSLWrapper_run `{ExternalTools} (cmd : list string)
    (shfile : string) : M unit :=
  fun w =>
    let '(o, f') := FSLWrapper_call cmd shfile (fs w) in
    (from_outcome o, {| fs := f'; trace := trace w ++ [EvFSL cmd shfile] |}).

(** [glob.glob(pattern)[0]]. *)
Definition glob_first `{ExternalTools} (pattern : string) : M string :=
  fun w =>
    match glob_glob (fs w) pattern with
    | [] => (Raise IndexError, w)
    | p :: _ => (Ok p, w)
    end.

Definition tractconverter_TRK `{ExternalTools} (p : string) : M string :=
  fun w =>
    let w' := {| fs := fs w; trace := trace w ++ [EvRead p] |} in
    match tc_TRK p (fs w) with
    | None => (Ok p, w')
    | Some e => (Raise e, w')
    end.

Definition tractconverter_TCK_create `{ExternalTools} (p trk anat : string)
    : M string :=
  fun w =>
    let '(o, f') := tc_TCK_create p trk anat (fs w) in
    let w' := {| fs := f'; trace := trace w ++ [EvWrite p] |} in
    match o with
    | None => (Ok p, w')
    | Some e => (Raise e, w')
    end.

Definition tractconverter_convert `{ExternalTools} (trk tck : string) : M unit :=
  fun w =>
    let '(o, f') := tc_convert trk tck (fs w) in
    (from_outcome o, {| fs := f'; trace := trace w ++ [EvConvert trk tck] |}).

(** ** numpy indexing along the last axis *)

(** Element [i] of each of the [n] consecutive rows of length [T]. *)
Fixpoint pick (n T i : nat) (data : list Z) : list Z :=
  match n with
  | O => []
  | S n' => nth i data 0 :: pick n' T i (skipn T data)
  end.

Definition prod (dims : list nat) : nat := fold_right Nat.mul 1%nat dims.

(** An index that numpy can convert to a C [long] (64 bits). *)
Definition fits_intp (index : Z) : bool :=
  ((- 2 ^ 63 <=? index)%Z && (index <? 2 ^ 63)%Z)%bool.

(** [a[..., index]]: the index is first converted to a C [long]; then a
    negative index counts from the end, an index out of range raises
    [IndexError], and so does a 0-d array. *)
Definition index_last `{ExternalTools} (a : ndarray) (index : Z)
    : result ndarray :=
  if negb (fits_intp index) then Raise (intp_error index)
  else
    match rev (shape a) with
    | [] => Raise IndexError
    | T :: _ =>
        let t := Z.of_nat T in
        if ((- t <=? index)%Z && (index <? t)%Z)%bool
        then
          let i := Z.to_nat (if (index <? 0)%Z then index + t else index) in
          let lead := removelast (shape a) in
          Ok {| shape := lead; elems := pick (prod lead) T i (elems a) |}
        else Raise IndexError
    end.

(** Reading a 4D and a 3D array at a multi-index (row-major order). *)
Definition get4 (a : ndarray) (x y z t : nat) : Z :=
  match shape a with
  | [_; ny; nz; nt] => nth (((x * ny + y) * nz + z) * nt + t) (elems a) 0
  | _ => 0
  end.

Definition get3 (a : ndarray) (x y z : nat) : Z :=
  match shape a with
  | [_; ny; nz] => nth ((x * ny + y) * nz + z) (elems a) 0
  | _ => 0
  end.

(** ** The VTK reader and its shared buffer

    [polydata.GetCell(i).GetPoints().GetData()] hands out the same array
    object at every call and overwrites it; [vtk_to_numpy] is a view of
    that memory; [numpy.array] makes an array of its own. *)

Inductive array_ref : Type :=
  | SharedBuffer
  | Owned (data : fiber).

Record vtk_mem : Type := mk_vtk_mem { buffer : fiber }.

Definition GetCell_points (cells : list fiber) (i : nat) (m : vtk_mem)
    : array_ref * vtk_mem :=
  (SharedBuffer, {| buffer := nth i cells [] |}).

Definition vtk_to_numpy (a : array_ref) : array_ref := a.

Definition deref (m : vtk_mem) (a : array_ref) : fiber :=
  match a with
  | SharedBuffer => buffer m
  | Owned d => d
  end.

Definition numpy_array (m : vtk_mem) (a : array_ref) : array_ref :=
  Owned (deref m a).

(** The body of [for i in range(nb_fibers)], on the list under
    construction and the reader's memory. *)
Definition fiber_step (cells : list fiber) (st : list array_ref * vtk_mem)
    (i : nat) : list array_ref * vtk_mem :=
  let '(fibers, m) := st in
  let '(vtk_pts, m1) := GetCell_points cells i m in
  let fiber_pts := vtk_to_numpy vtk_pts in
  let fiber_pts_copy := numpy_array m1 fiber_pts in
  ((fibers ++ [fiber_pts_copy])%list, m1).

Definition collect_fibers (cells : list fiber) (m : vtk_mem)
    : list array_ref * vtk_mem :=
  let nb_fibers := length cells in
  fold_left (fiber_step cells) (seq 0 nb_fibers) ([], m).

(** The same loop without the call to [numpy.array]. *)
Definition fiber_step_nocopy (cells : list fiber)
    (st : list array_ref * vtk_mem) (i : nat) : list array_ref * vtk_mem :=
  let '(fibers, m) := st in
  let '(vtk_pts, m1) := GetCell_points cells i m in
  let fiber_pts := vtk_to_numpy vtk_pts in
  ((fibers ++ [fiber_pts])%list, m1).

Definition collect_fibers_nocopy (cells : list fiber) (m : vtk_mem)
    : list array_ref * vtk_mem :=
  fold_left (fiber_step_nocopy cells) (seq 0 (length cells)) ([], m).

Definition lps_to_ras : matrix := numpy_diag [-1; -1; 1; 1].

(** [nibabel.streamlines.Tractogram(streamlines=fibers,
    affine_to_rasmm=lps_to_ras)]: the constructor reads the arrays it is
    given into an [ArraySequence], which leaves the empty ones out. *)
Definition mitk_tractogram (cells : list fiber) (m : vtk_mem) : Tractogram :=
  let '(fibers, m') := collect_fibers cells m in
  {| streamlines := ArraySequence (map (deref m') fibers);
     affine_to_rasmm := lps_to_ras |}.

(** ** The six functions of the module *)

Section Functions.
Context `{ExternalTools}.
Local Open Scope py_scope.

(** [if not tck_tractogram.endswith(".tck"): tck_tractogram += ".tck"] *)
Definition add_tck (tck_tractogram : string) : string :=
  if negb (Str.endswith tck_tractogram ".tck")
  then tck_tractogram ++ ".tck"
  else tck_tractogram.

Definition convert_connectomist_trk_fibers_to_tck
    (dwi trk_tractogram tck_tractogram : string) (tempdir : option string)
    : M pyval :=
  for_each [dwi; trk_tractogram] (fun path =>
    isf <- os_path_isfile path ;;
    if negb isf
    then raise (ValueError ("File does not exist: " ++ path))
    else ret tt) ;;;
  tempdir <- tempfile_mkdtemp "tractconverter_" tempdir ;;
  trk <- nibabel_streamlines_load trk_tractogram ;;
  let trk := set_header trk "voxel_order" "LPI" in
  let tmp_trk_tractogram := os_path.join tempdir "tmp.trk" in
  TractFile_save trk tmp_trk_tractogram ;;;
  let tck_tractogram := add_tck tck_tractogram in
  trk_fibers <- tractconverter_TRK tmp_trk_tractogram ;;
  tck_fibers <- tractconverter_TCK_create tck_tractogram trk_fibers dwi ;;
  tractconverter_convert trk_fibers tck_fibers ;;;
  shutil_rmtree tempdir ;;;
  ret (PyStr tck_tractogram).

Definition convert_mitk_vtk_fibers_to_tck
    (vtk_tractogram tck_tractogram : string) : M pyval :=
  isf <- os_path_isfile vtk_tractogram ;;
  if negb isf
  then raise (ValueError ("File does not exist: " ++ vtk_tractogram))
  else
    polydata <- vtkPolyDataReader_read vtk_tractogram ;;
    let tractogram := mitk_tractogram polydata {| buffer := [] |} in
    let tck_tractogram := add_tck tck_tractogram in
    TckFile_save tractogram tck_tractogram ;;;
    ret (PyStr tck_tractogram).

(** [nb_threads = None] stands for the argument left out (default 1). *)
Definition mrtrix_extract_b0s_and_mean_b0
    (dwi b0s mean_b0 : string) (nb_threads : option Z) : M pyval :=
  let nb_threads := default 1 nb_threads in
  let cmd_1 := ["dwiextract"; "-bzero"; dwi; b0s;
                "-nthreads"; Str.of_int nb_threads; "-failonwarn"] in
  subprocess_check_call cmd_1 ;;;
  let cmd_2 := ["mrmath"; b0s; "mean"; mean_b0; "-axis"; "3";
                "-nthreads"; Str.of_int nb_threads; "-failonwarn"] in
  subprocess_check_call cmd_2 ;;;
  ret PyNone.

(** The default output name of [extract_image]. *)
Definition default_out_file (in_file : string) (index : Z) : string :=
  let dirname := os_path.dirname in_file in
  let basename := Str.split_head "." (os_path.basename in_file) in
  os_path.join dirname
    ("extract" ++ Str.of_int index ++ "_" ++ basename ++ ".nii.gz").

Definition lift_result {A} (r : result A) : M A := fun w => (r, w).

Definition extract_image (in_file : string) (index : Z)
    (out_file : option string) : M pyval :=
  let out_file :=
    match out_file with
    | None => default_out_file in_file index
    | Some f => f
    end in
  image <- nibabel_load in_file ;;
  let affine := get_affine image in
  extracted_array <- lift_result (index_last (get_data image) index) ;;
  let extracted_image := {| get_data := extracted_array; get_affine := affine |} in
  nibabel_save extracted_image out_file ;;;
  ret (PyStr out_file).

(** [fslconfig = None] stands for the argument left out. *)
Definition fslreorient2std (input_image output_image : string)
    (fslconfig : option string) : M pyval :=
  let fslconfig := default DEFAULT_FSL_PATH fslconfig in
  isf <- os_path_isfile input_image ;;
  if negb isf
  then raise (ValueError ("'" ++ input_image ++ "' is not a valid input file."))
  else
    let cmd := ["fslreorient2std"; input_image; output_image] in
    FSLWrapper_run cmd fslconfig ;;;
    p <- glob_first (output_image ++ "*") ;;
    ret (PyStr p).

Definition apply_mask (input_file output_fileroot mask_file : string)
    (fslconfig : option string) : M pyval :=
  let fslconfig := default DEFAULT_FSL_PATH fslconfig in
  for_each [input_file; mask_file] (fun filename =>
    isf <- os_path_isfile filename ;;
    if negb isf
    then raise (ValueError ("'" ++ filename ++ "' is not a valid input file."))
    else ret tt) ;;;
  let cmd := ["fslmaths"; input_file; "-mas"; mask_file; output_fileroot] in
  FSLWrapper_run cmd fslconfig ;;;
  p <- glob_first (output_fileroot ++ ".*") ;;
  ret (PyStr p).

End Functions.

(** ** Characters of a string *)

(** [c in s]. *)
Fixpoint contains_char (c : ascii) (s : string) : bool :=
  match s with
  | EmptyString => false
  | String a s' => Ascii.eqb a c || contains_char c s'
  end.

(** Every character of [s] is [c]. *)
Fixpoint all_char (c : ascii) (s : string) : bool :=
  match s with
  | EmptyString => true
  | String a s' => Ascii.eqb a c && all_char c s'
  end.

(** ** A sample environment and world, used to run the functions

    The sample environment stands in for the tools and libraries on a few
    plain inputs; it is used to run the functions, never as a description
    of the tools. *)

Definition sample_spawn (cmd : list string) (f : FS) : option Z * FS :=
  match cmd with
  | "dwiextract" :: _ :: dwi :: b0s :: _ =>
      if isfile f dwi then (Some 0, put_file b0s CRaw f) else (Some 1, f)
  | "mrmath" :: b0s :: _ :: mean_b0 :: _ =>
      if isfile f b0s then (Some 0, put_file mean_b0 CRaw f) else (Some 1, f)
  | _ => (None, f)
  end.

Definition sample_spawn_error (cmd : list string) : exn :=
  if existsb (contains_char "000") cmd
  then ValueError "embedded null byte"
  else OSError (hd "" cmd).

Definition sample_fsl (cmd : list string) (shfile : string) (f : FS)
    : option exn * FS :=
  match cmd with
  | ["fslreorient2std"; _; out] => (None, put_file (out ++ ".nii.gz") CRaw f)
  | ["fslmaths"; _; "-mas"; _; out] => (None, put_file (out ++ ".nii.gz") CRaw f)
  | _ => (Some (LibraryError "FSLWrapper"), f)
  end.

Definition has_magic (s : string) : bool :=
  contains_char "*" s || contains_char "?" s || contains_char "[" s.

(** The sample matcher covers a literal path and a pattern [root*] with a
    literal [root]: the entries of the directory of [root] whose name
    starts with the last component of [root], hidden entries left out
    when that component is empty.  For any other pattern it reports no
    match. *)
Definition sample_glob (f : FS) (pattern : string) : list string :=
  let n := String.length pattern in
  let root := Str.take (n - 1) pattern in
  let paths := (map fst (map_to_list (files f)) ++ elements (dirs f))%list in
  if Str.endswith pattern "*" && negb (has_magic root)
  then
    List.filter
      (fun p =>
         let rest := Str.drop (String.length root) p in
         String.prefix root p
         && negb (contains_char "/" rest)
         && negb (String.eqb (os_path.basename root) ""
                  && (String.eqb rest "" || String.prefix "." rest)))
      paths
  else if negb (has_magic pattern) && exists_path f pattern
  then [pattern]
  else [].

Definition sample_tc_TRK (p : string) (f : FS) : option exn :=
  match files f !! p with
  | Some (CTract t) =>
      match format t with
      | FmtTRK => None
      | FmtTCK => Some (LibraryError "tractconverter.TRK")
      end
  | _ => Some (LibraryError "tractconverter.TRK")
  end.

Definition sample_tc_TCK_create (p trk anat : string) (f : FS)
    : option exn * FS :=
  match files f !! anat with
  | Some (CNifti _) =>
      (None, put_file p (CTract {| format := FmtTCK; header := ∅;
                                   file_streamlines := [] |}) f)
  | _ => (Some (LibraryError "tractconverter.TCK.create"), f)
  end.

Definition sample_tc_convert (trk tck : string) (f : FS) : option exn * FS :=
  match files f !! trk with
  | Some (CTract t) =>
      (None, put_file tck (CTract {| format := FmtTCK; header := ∅;
                                     file_streamlines := file_streamlines t |}) f)
  | _ => (Some (LibraryError "tractconverter.convert"), f)
  end.

(** An affine whose entries a 32-bit float holds exactly. *)
Definition float32_exact (a : Z) : bool :=
  match to_float32 a with
  | F32 v => (v =? a)%Z
  | F32_inf _ => false
  end.

(** The sample writer stores an image of at least one axis, with an
    affine of 32-bit floats, at a path that ends in [.nii] or [.nii.gz]
    in an existing directory; it refuses everything else. *)
Definition sample_nifti_save (img : Image) (p : string) (f : FS) : result FS :=
  if (Str.endswith p ".nii" || Str.endswith p ".nii.gz")
     && can_write f p
     && negb (Nat.eqb (length (shape (get_data img))) 0)
     && forallb (forallb float32_exact) (get_affine img)
  then Ok (put_file p (CNifti img) f)
  else Raise (LibraryError "nibabel.save").

Definition make_tools
    (sp : list string -> FS -> option Z * FS)
    (fsl : list string -> string -> FS -> option exn * FS) : ExternalTools := {|
  spawn := sp;
  spawn_error := sample_spawn_error;
  FSLWrapper_call := fsl;
  DEFAULT_FSL_PATH := "/etc/fsl/5.0/fsl.sh";
  glob_glob := sample_glob;
  tc_TRK := sample_tc_TRK;
  tc_TCK_create := sample_tc_TCK_create;
  tc_convert := sample_tc_convert;
  gettempdir := "/tmp";
  candidate_names := ["a1b2c3d4"; "e5f6g7h8"];
  nifti_save := sample_nifti_save;
  streamlines_load_error := fun _ => LibraryError "nibabel.streamlines.load";
  tck_header := fun _ => {[ "datatype" := "Float32LE" ]};
  intp_error := fun _ => OverflowError
|}.

Definition sample_tools : ExternalTools := make_tools sample_spawn sample_fsl.


(** A 4D image of shape (1, 2, 1, 3). *)
Definition sample_image : Image :=
  {| get_data := {| shape := [1; 2; 1; 3]%nat; elems := [10; 11; 12; 20; 21; 22] |};
     get_affine := numpy_diag [2; 2; 2; 1] |}.

Definition sample_trk : TractFile :=
  {| format := FmtTRK;
     header := {[ "voxel_order" := "LAS" ]};
     file_streamlines := [[(F32 0, F32 0, F32 0); (F32 1, F32 1, F32 1)]] |}.

Definition sample_tck : TractFile :=
  {| format := FmtTCK;
     header := {[ "datatype" := "Float32LE" ]};
     file_streamlines := [[(F32 0, F32 0, F32 0); (F32 1, F32 1, F32 1)]] |}.

Definition sample_cells : list fiber :=
  [[(1, 2, 3)]; [(4, 5, 6); (7, 8, 9)]].

(** Cells of one, no and two points. *)
Definition gap_cells : list fiber :=
  [[(1, 2, 3)]; []; [(4, 5, 6); (7, 8, 9)]].

Definition sample_fs : FS :=
  {| files := {[ "/data/dwi.nii.gz" := CNifti sample_image;
                 "/data/fibers.trk" := CTract sample_trk;
                 "/data/fibers.tck" := CTract sample_tck;
                 "/data/broken.trk" := CRaw;
                 "/data/fibers.fib" := CVtk sample_cells;
                 "/data/gap.fib" := CVtk gap_cells ]};
     dirs := {[ "/tmp"; "/data" ]} |}.

Definition sample_world : World := {| fs := sample_fs; trace := [] |}.

(** ** Specifications of runs *)

(** [returns r P]: if the run [r] hands back a value, the value and the
    world it leaves satisfy [P]. *)
Definition returns {A} (r : result A * World) (P : A -> World -> Prop) : Prop :=
  match r with
  | (Ok a, w') => P a w'
  | (Raise _, _) => True
  end.

Definition is_path (v : pyval) : Prop := exists p, v = PyStr p.

(** [grows m]: running [m] only adds events at the end of the trace. *)
Definition grows {A} (m : M A) : Prop :=
  forall w, exists l, trace (snd (m w)) = (trace w ++ l)%list.

(** The reflection about the left-right and front-back axes. *)
Definition flip_xy (p : point) : point :=
  let '(x, y, z) := p in (- x, - y, z).

(** What a TCK file holds for the cells of a polydata: the cells that
    have points, x and y negated, as 32-bit floats. *)
Definition tck_of_cells (cells : list fiber) : list (list point32) :=
  map (map (fun p => to_point32 (flip_xy p))) (List.filter nonempty cells).

(** The cells of the polydata file at [p], as the VTK reader sees them. *)
Definition polydata_of (f : FS) (p : string) : list fiber :=
  match files f !! p with
  | Some (CVtk cells) => cells
  | _ => []
  end.

(** The body of the loops that check that the inputs exist, with the
    message as a parameter. *)
Definition check_exists (msg : string -> string) (path : string) : M unit :=
  (isf <- os_path_isfile path ;;
   if negb isf then raise (ValueError (msg path)) else ret tt)%py.

Definition msg_not_exist (path : string) : string :=
  "File does not exist: " ++ path.

Definition msg_not_valid (path : string) : string :=
  "'" ++ path ++ "' is not a valid input file.".

(** The two command lines of [mrtrix_extract_b0s_and_mean_b0]. *)
Definition dwiextract_cmd (dwi b0s : string) (nb_threads : Z) : list string :=
  ["dwiextract"; "-bzero"; dwi; b0s;
   "-nthreads"; Str.of_int nb_threads; "-failonwarn"].

Definition mrmath_cmd (b0s mean_b0 : string) (nb_threads : Z) : list string :=
  ["mrmath"; b0s; "mean"; mean_b0; "-axis"; "3";
   "-nthreads"; Str.of_int nb_threads; "-failonwarn"].

(** The file name that [extract_image] derives when [out_file] is left
    out. *)
Definition default_name (in_file : string) (index : Z) : string :=
  "extract" ++ Str.of_int index ++ "_"
  ++ Str.split_head "." (os_path.basename in_file) ++ ".nii.gz".

(** The sample environment with an [mrmath] that ends with status 2. *)
Definition mrmath_fails_tools : ExternalTools :=
  make_tools
    (fun cmd f =>
       match cmd with
       | "dwiextract" :: _ => (Some 0, f)
       | _ => (Some 2, f)
       end)
    sample_fsl.

(** The sample environment with an FSL wrapper that always raises. *)
Definition failing_fsl_tools : ExternalTools :=
  make_tools sample_spawn
    (fun _ _ f => (Some (LibraryError "FSLWrapper"), f)).

(** * Properties *)

(** ** Paths and strings on examples *)

Example basename_ex : os_path.basename "/data/sub01/dwi.nii.gz" = "dwi.nii.gz".
Proof. reflexivity. Qed.

Example dirname_ex : os_path.dirname "/data/sub01/dwi.nii.gz" = "/data/sub01".
Proof. reflexivity. Qed.

Example dirname_root_ex : os_path.dirname "/dwi.nii.gz" = "/".
Proof. reflexivity. Qed.

Example dirname_rel_ex : os_path.dirname "dwi.nii.gz" = "".
Proof. reflexivity. Qed.

Example join_ex : os_path.join "/tmp/x" "tmp.trk" = "/tmp/x/tmp.trk".
Proof. reflexivity. Qed.

Example of_int_ex : Str.of_int 12 = "12" /\ Str.of_int (-3) = "-3" /\ Str.of_int 0 = "0".
Proof. repeat split. Qed.

Example endswith_ex :
  Str.endswith "out.tck" ".tck" = true /\ Str.endswith "tck" ".tck" = false
  /\ Str.endswith "out.tck.gz" ".tck" = false.
Proof. repeat split. Qed.

(** ** Strings *)

Lemma app_cons (a : ascii) (s t : string) :
  String a s ++ t = String a (s ++ t).
Proof. reflexivity. Qed.

Lemma substring_all (s : string) : substring 0 (String.length s) s = s.
Proof. induction s as [|a s IH]; simpl; [reflexivity | now rewrite IH]. Qed.

Lemma length_app (s t : string) :
  String.length (s ++ t) = (String.length s + String.length t)%nat.
Proof. induction s as [|a s IH]; simpl; [reflexivity | now rewrite IH]. Qed.

Lemma drop_app (s t : string) : Str.drop (String.length s) (s ++ t) = t.
Proof.
  unfold Str.drop. induction s as [|a s IH]; simpl.
  - rewrite Nat.sub_0_r. apply substring_all.
  - exact IH.
Qed.

Lemma take_drop (i : nat) (s : string) :
  (i <= String.length s)%nat -> Str.take i s ++ Str.drop i s = s.
Proof.
  unfold Str.take, Str.drop. revert i.
  induction s as [|a s IH]; intros [|i] Hi; simpl in *; try lia.
  - reflexivity.
  - now rewrite substring_all.
  - rewrite app_cons. f_equal. apply IH. lia.
Qed.

Lemma endswith_app (s t : string) : Str.endswith (s ++ t) t = true.
Proof.
  unfold Str.endswith. rewrite length_app.
  replace (String.length s + String.length t - String.length t)%nat
    with (String.length s) by lia.
  rewrite drop_app, String.eqb_refl, andb_true_r.
  apply Nat.leb_le. lia.
Qed.

(** [endswith] says what it should: the suffix is a trailing part. *)
Lemma endswith_spec (s t : string) :
  Str.endswith s t = true <-> exists q, s = q ++ t.
Proof.
  split.
  - unfold Str.endswith. intros Hb.
    apply andb_true_iff in Hb as [Hle Heq].
    apply Nat.leb_le in Hle. apply String.eqb_eq in Heq.
    exists (Str.take (String.length s - String.length t) s).
    assert (String.length s - String.length t <= String.length s)%nat as Hk by lia.
    pose proof (take_drop _ _ Hk) as E. rewrite Heq in E. now symmetry.
  - intros [q ->]. apply endswith_app.
Qed.

(** ** Runs in the monad *)

Lemma returns_bind {A B} (m : M A) (k : A -> M B) (P : B -> World -> Prop) w :
  (forall a w', returns (k a w') P) -> returns (bind m k w) P.
Proof.
  intros Hk. unfold bind.
  destruct (m w) as [[a|e] w']; [apply Hk | exact I].
Qed.

Lemma returns_ret {A} (a : A) (P : A -> World -> Prop) w :
  P a w -> returns (ret a w) P.
Proof. intros HP. exact HP. Qed.

Lemma returns_raise {A} (e : exn) (P : A -> World -> Prop) w :
  returns (raise e w) P.
Proof. exact I. Qed.

Lemma returns_weaken {A} (r : result A * World) (P Q : A -> World -> Prop) :
  (forall a w', P a w' -> Q a w') -> returns r P -> returns r Q.
Proof. destruct r as [[a|e] w']; simpl; auto. Qed.

Lemma check_exists_missing msg path w :
  isfile (fs w) path = false ->
  check_exists msg path w = (Raise (ValueError (msg path)), w).
Proof.
  intros Hm. unfold check_exists, bind, os_path_isfile. now rewrite Hm.
Qed.

Lemma check_exists_present msg path w :
  isfile (fs w) path = true -> check_exists msg path w = (Ok tt, w).
Proof.
  intros Hm. unfold check_exists, bind, os_path_isfile. now rewrite Hm.
Qed.

(** A loop of checks stops at the first missing path and leaves the
    world as it found it. *)
Lemma for_each_check msg (paths : list string) w :
  for_each paths (check_exists msg) w =
    match find (fun p => negb (isfile (fs w) p)) paths with
    | Some p => (Raise (ValueError (msg p)), w)
    | None => (Ok tt, w)
    end.
Proof.
  induction paths as [|p paths IH]; simpl; [reflexivity|].
  unfold bind. destruct (isfile (fs w) p) eqn:Hp; simpl.
  - rewrite check_exists_present by assumption. exact IH.
  - now rewrite check_exists_missing.
Qed.

Ltac returns_steps :=
  repeat first
    [ apply returns_raise
    | apply returns_ret
    | apply returns_bind; intros
    | match goal with
      | |- returns ((if ?b then _ else _) _) _ => destruct b
      | |- returns ((match ?c with CTract _ => _ | _ => _ end) _) _ => destruct c
      | |- returns ((match ?c with Ok _ => _ | Raise _ => _ end) _) _ => destruct c
      end ].

(** ** Missing inputs *)

Section Guards.
Context `{ExternalTools}.

Lemma trk_guard dwi trk tck td w p :
  find (fun q => negb (isfile (fs w) q)) [dwi; trk] = Some p ->
  convert_connectomist_trk_fibers_to_tck dwi trk tck td w =
    (Raise (ValueError (msg_not_exist p)), w).
Proof.
  intros Hp. unfold convert_connectomist_trk_fibers_to_tck.
  unfold bind at 1.
  change (for_each [dwi; trk] _)
    with (for_each [dwi; trk] (check_exists msg_not_exist)).
  now rewrite for_each_check, Hp.
Qed.

Lemma mask_guard inp root mask cfg w p :
  find (fun q => negb (isfile (fs w) q)) [inp; mask] = Some p ->
  apply_mask inp root mask cfg w = (Raise (ValueError (msg_not_valid p)), w).
Proof.
  intros Hp. unfold apply_mask. cbv zeta.
  unfold bind at 1.
  change (for_each [inp; mask] _)
    with (for_each [inp; mask] (check_exists msg_not_valid)).
  now rewrite for_each_check, Hp.
Qed.

(** C4: a call whose input path [p] is missing raises [ValueError] and
    leaves the world untouched: the file system is the same and no
    action (process, read, write, conversion) has been added to the
    trace.  This holds for the dwi and trk paths of
    [convert_connectomist_trk_fibers_to_tck], the vtk path of
    [convert_mitk_vtk_fibers_to_tck], the input of [fslreorient2std] and
    the input and mask of [apply_mask]. *)
Theorem missing_input_raises_before_any_work
    (w : World) (p : string) (Hmiss : isfile (fs w) p = false) :
  (forall trk tck td,
      convert_connectomist_trk_fibers_to_tck p trk tck td w =
        (Raise (ValueError (msg_not_exist p)), w))
  /\ (forall dwi tck td,
      convert_connectomist_trk_fibers_to_tck dwi p tck td w =
        (Raise (ValueError
                  (msg_not_exist (if isfile (fs w) dwi then p else dwi))), w))
  /\ (forall tck,
      convert_mitk_vtk_fibers_to_tck p tck w =
        (Raise (ValueError (msg_not_exist p)), w))
  /\ (forall out cfg,
      fslreorient2std p out cfg w =
        (Raise (ValueError (msg_not_valid p)), w))
  /\ (forall root mask cfg,
      apply_mask p root mask cfg w =
        (Raise (ValueError (msg_not_valid p)), w))
  /\ (forall inp root cfg,
      apply_mask inp root p cfg w =
        (Raise (ValueError
                  (msg_not_valid (if isfile (fs w) inp then p else inp))), w)).
Proof.
  repeat split; intros.
  - apply trk_guard. simpl. now rewrite Hmiss.
  - apply trk_guard. simpl. rewrite Hmiss.
    now destruct (isfile (fs w) dwi).
  - unfold convert_mitk_vtk_fibers_to_tck, bind, os_path_isfile.
    now rewrite Hmiss.
  - unfold fslreorient2std, bind, os_path_isfile. cbv zeta.
    now rewrite Hmiss.
  - apply mask_guard. simpl. now rewrite Hmiss.
  - apply mask_guard. simpl. rewrite Hmiss.
    now destruct (isfile (fs w) inp).
Qed.

End Guards.

Lemma missing_input_witness :
  isfile (fs sample_world) "/data/nothere.trk" = false
  /\ @convert_connectomist_trk_fibers_to_tck sample_tools
       "/data/dwi.nii.gz" "/data/nothere.trk" "/data/out" None sample_world
     = (Raise (ValueError "File does not exist: /data/nothere.trk"),
        sample_world)
  /\ @apply_mask sample_tools
       "/data/nothere.trk" "/data/masked" "/data/dwi.nii.gz" None sample_world
     = (Raise (ValueError "'/data/nothere.trk' is not a valid input file."),
        sample_world).
Proof.
  assert (isfile (fs sample_world) "/data/nothere.trk" = false) as Hm
    by (vm_compute; reflexivity).
  destruct (@missing_input_raises_before_any_work sample_tools
              sample_world "/data/nothere.trk" Hm)
    as (_ & Htrk & _ & _ & Hmask & _).
  split; [exact Hm|]. split.
  - exact (Htrk "/data/dwi.nii.gz" "/data/out" None).
  - exact (Hmask "/data/masked" "/data/dwi.nii.gz" None).
Defined.

(** ** The [.tck] suffix *)

Lemma add_tck_has_suffix (p : string) : Str.endswith (add_tck p) ".tck" = true.
Proof.
  unfold add_tck. destruct (Str.endswith p ".tck") eqn:E; simpl.
  - exact E.
  - apply endswith_app.
Qed.

Section Suffix.
Context `{ExternalTools}.

(** C5: the output path of the two converters gets the [.tck] suffix
    once.  A path that already ends in [.tck] is kept; any other path
    gets exactly [.tck] appended; doing the step twice is the same as
    doing it once; and the value either converter returns is the path
    after that step. *)
Theorem tck_suffix_appended_once (p : string) :
  ((exists q, p = q ++ ".tck") -> add_tck p = p)
  /\ ((~ exists q, p = q ++ ".tck") -> add_tck p = p ++ ".tck")
  /\ add_tck (add_tck p) = add_tck p
  /\ (forall dwi trk td w,
        returns (convert_connectomist_trk_fibers_to_tck dwi trk p td w)
                (fun v _ => v = PyStr (add_tck p)))
  /\ (forall vtk w,
        returns (convert_mitk_vtk_fibers_to_tck vtk p w)
                (fun v _ => v = PyStr (add_tck p))).
Proof.
  repeat split.
  - intros Hq. apply endswith_spec in Hq. unfold add_tck. now rewrite Hq.
  - intros Hq. unfold add_tck.
    destruct (Str.endswith p ".tck") eqn:E; [|reflexivity].
    exfalso. apply Hq. now apply endswith_spec.
  - unfold add_tck at 1. now rewrite add_tck_has_suffix.
  - intros. unfold convert_connectomist_trk_fibers_to_tck. cbv zeta.
    returns_steps. reflexivity.
  - intros. unfold convert_mitk_vtk_fibers_to_tck. cbv zeta.
    returns_steps. reflexivity.
Qed.

End Suffix.

(** Both cases of the suffix step, and a run of each converter. *)
Lemma tck_suffix_witness :
  add_tck "/data/out.tck" = "/data/out.tck"
  /\ add_tck "/data/out" = "/data/out.tck"
  /\ fst (@convert_connectomist_trk_fibers_to_tck sample_tools
            "/data/dwi.nii.gz" "/data/fibers.trk" "/data/out" None sample_world)
     = Ok (PyStr "/data/out.tck")
  /\ fst (@convert_mitk_vtk_fibers_to_tck sample_tools
            "/data/fibers.fib" "/data/out.tck" sample_world)
     = Ok (PyStr "/data/out.tck").
Proof.
  split; [|split; [|split]].
  - apply (proj1 (@tck_suffix_appended_once sample_tools "/data/out.tck")).
    now exists "/data/out".
  - apply (proj1 (proj2 (@tck_suffix_appended_once sample_tools "/data/out"))).
    intros Hq. apply endswith_spec in Hq. vm_compute in Hq. discriminate Hq.
  - vm_compute. reflexivity.
  - vm_compute. reflexivity.
Defined.

(** ** What the functions return *)

Section Returns.
Context `{ExternalTools}.

(** C9, amended: five of the six functions return a path (a [str]) when
    they return; [mrtrix_extract_b0s_and_mean_b0] has no [return]
    statement and hands back [None]. *)
Theorem return_values (w : World) :
  (forall dwi trk tck td,
      returns (convert_connectomist_trk_fibers_to_tck dwi trk tck td w)
              (fun v _ => is_path v))
  /\ (forall vtk tck,
      returns (convert_mitk_vtk_fibers_to_tck vtk tck w)
              (fun v _ => is_path v))
  /\ (forall in_file index out_file,
      returns (extract_image in_file index out_file w)
              (fun v _ => is_path v))
  /\ (forall inp out cfg,
      returns (fslreorient2std inp out cfg w) (fun v _ => is_path v))
  /\ (forall inp root mask cfg,
      returns (apply_mask inp root mask cfg w) (fun v _ => is_path v))
  /\ (forall dwi b0s mean_b0 nb,
      returns (mrtrix_extract_b0s_and_mean_b0 dwi b0s mean_b0 nb w)
              (fun v _ => v = PyNone)).
Proof.
  repeat split; intros.
  - unfold convert_connectomist_trk_fibers_to_tck. cbv zeta.
    returns_steps. now eexists.
  - unfold convert_mitk_vtk_fibers_to_tck. cbv zeta.
    returns_steps. now eexists.
  - unfold extract_image. cbv zeta. returns_steps. now eexists.
  - unfold fslreorient2std. cbv zeta. returns_steps. now eexists.
  - unfold apply_mask. cbv zeta. returns_steps. now eexists.
  - unfold mrtrix_extract_b0s_and_mean_b0. cbv zeta.
    returns_steps. reflexivity.
Qed.

End Returns.

(** C9 as stated fails: a run of [mrtrix_extract_b0s_and_mean_b0] in which
    both commands end with status 0 returns [None], not a path. *)
Lemma b0_extraction_returns_none :
  fst (@mrtrix_extract_b0s_and_mean_b0 sample_tools
         "/data/dwi.nii.gz" "/data/b0s.nii.gz" "/data/mean_b0.nii.gz" None
         sample_world) = Ok PyNone
  /\ ~ is_path PyNone.
Proof.
  split.
  - vm_compute. reflexivity.
  - intros [p Hp]. discriminate Hp.
Qed.

(** ** b0 extraction: two commands in sequence *)

Section B0.
Context `{ExternalTools}.

(** The whole run, in terms of what the two commands do. *)
Lemma b0_run (dwi b0s mean_b0 : string) (nb : option Z) (w : World) :
  mrtrix_extract_b0s_and_mean_b0 dwi b0s mean_b0 nb w =
    let cmd_1 := dwiextract_cmd dwi b0s (default 1 nb) in
    let cmd_2 := mrmath_cmd b0s mean_b0 (default 1 nb) in
    let t1 := (trace w ++ [EvSubprocess cmd_1])%list in
    match spawn cmd_1 (fs w) with
    | (Some 0, f1) =>
        let w2 := {| fs := snd (spawn cmd_2 f1);
                     trace := (t1 ++ [EvSubprocess cmd_2])%list |} in
        match fst (spawn cmd_2 f1) with
        | Some 0 => (Ok PyNone, w2)
        | Some rc => (Raise (CalledProcessError rc cmd_2), w2)
        | None => (Raise (spawn_error cmd_2), w2)
        end
    | (Some rc, f1) =>
        (Raise (CalledProcessError rc cmd_1), {| fs := f1; trace := t1 |})
    | (None, f1) =>
        (Raise (spawn_error cmd_1), {| fs := f1; trace := t1 |})
    end.
Proof.
  unfold mrtrix_extract_b0s_and_mean_b0, bind, subprocess_check_call.
  cbv zeta. fold (dwiextract_cmd dwi b0s (default 1 nb)).
  fold (mrmath_cmd b0s mean_b0 (default 1 nb)).
  destruct (spawn (dwiextract_cmd dwi b0s (default 1 nb)) (fs w))
    as [[[|rc|rc]|] f1]; try reflexivity.
  cbn [fs trace].
  destruct (spawn (mrmath_cmd b0s mean_b0 (default 1 nb)) f1)
    as [[[|rc|rc]|] f2]; reflexivity.
Qed.

(** C6: [mrtrix_extract_b0s_and_mean_b0] first runs [dwiextract -bzero]
    from the dwi path to the b0s path.  When that command ends with
    status 0, it then runs [mrmath ... mean ... -axis 3] on the same b0s
    path, on the file system the first command left, and these two are
    all the commands it runs.  When the first command ends with another
    status [rc], the call raises [CalledProcessError rc] for that
    command and the trace holds the first command only. *)
Theorem b0_extraction_runs_two_commands
    (dwi b0s mean_b0 : string) (nb : option Z) (w : World) :
  let n := default 1 nb in
  let cmd_1 := dwiextract_cmd dwi b0s n in
  let cmd_2 := mrmath_cmd b0s mean_b0 n in
  let run := mrtrix_extract_b0s_and_mean_b0 dwi b0s mean_b0 nb w in
  nth 3 cmd_1 "" = b0s /\ nth 1 cmd_2 "" = b0s
  /\ (forall f1,
        spawn cmd_1 (fs w) = (Some 0, f1) ->
        trace (snd run) = (trace w ++ [EvSubprocess cmd_1; EvSubprocess cmd_2])%list
        /\ fs (snd run) = snd (spawn cmd_2 f1)
        /\ (fst (spawn cmd_2 f1) = Some 0 -> fst run = Ok PyNone))
  /\ (forall rc f1,
        spawn cmd_1 (fs w) = (Some rc, f1) -> rc <> 0 ->
        run = (Raise (CalledProcessError rc cmd_1),
               {| fs := f1; trace := (trace w ++ [EvSubprocess cmd_1])%list |})).
Proof.
  intros n cmd_1 cmd_2 run. split; [reflexivity|]. split; [reflexivity|].
  subst run. rewrite b0_run. cbv zeta. subst cmd_1 cmd_2 n.
  split.
  - intros f1 H1. rewrite H1.
    destruct (spawn (mrmath_cmd b0s mean_b0 (default 1 nb)) f1)
      as [[[|rc|rc]|] f2]; cbn;
      rewrite <- ?app_assoc; repeat split; try reflexivity;
      intros; discriminate.
  - intros rc f1 H1 Hrc. rewrite H1.
    destruct rc; [contradiction| |]; reflexivity.
Qed.

End B0.

Lemma b0_extraction_witness :
  let run_ok := @mrtrix_extract_b0s_and_mean_b0 sample_tools
                  "/data/dwi.nii.gz" "/data/b0s.nii.gz" "/data/mean_b0.nii.gz"
                  (Some 2) sample_world in
  let run_ko := @mrtrix_extract_b0s_and_mean_b0 sample_tools
                  "/data/absent.nii.gz" "/data/b0s.nii.gz" "/data/mean_b0.nii.gz"
                  (Some 2) sample_world in
  trace (snd run_ok) =
    [EvSubprocess ["dwiextract"; "-bzero"; "/data/dwi.nii.gz";
                   "/data/b0s.nii.gz"; "-nthreads"; "2"; "-failonwarn"];
     EvSubprocess ["mrmath"; "/data/b0s.nii.gz"; "mean";
                   "/data/mean_b0.nii.gz"; "-axis"; "3";
                   "-nthreads"; "2"; "-failonwarn"]]
  /\ fst run_ko =
       Raise (CalledProcessError 1
                ["dwiextract"; "-bzero"; "/data/absent.nii.gz";
                 "/data/b0s.nii.gz"; "-nthreads"; "2"; "-failonwarn"])
  /\ length (trace (snd run_ko)) = 1%nat.
Proof.
  intros run_ok run_ko.
  destruct (@b0_extraction_runs_two_commands sample_tools
              "/data/dwi.nii.gz" "/data/b0s.nii.gz" "/data/mean_b0.nii.gz"
              (Some 2) sample_world) as (_ & _ & Hok & _).
  destruct (@b0_extraction_runs_two_commands sample_tools
              "/data/absent.nii.gz" "/data/b0s.nii.gz" "/data/mean_b0.nii.gz"
              (Some 2) sample_world) as (_ & _ & _ & Hko).
  split.
  - refine (proj1 (Hok _ _)). vm_compute. reflexivity.
  - assert (1 <> 0) as Hne by lia.
    subst run_ko. rewrite (Hko 1 sample_fs ltac:(vm_compute; reflexivity) Hne).
    split; reflexivity.
Defined.

(** ** Output discovery by glob *)

Section Glob.
Context `{ExternalTools}.

(** [fslreorient2std] once its input exists. *)
Lemma fslreorient2std_run inp out cfg w :
  isfile (fs w) inp = true ->
  fslreorient2std inp out cfg w =
    let cmd := ["fslreorient2std"; inp; out] in
    let sh := default DEFAULT_FSL_PATH cfg in
    let w1 := {| fs := snd (FSLWrapper_call cmd sh (fs w));
                 trace := (trace w ++ [EvFSL cmd sh])%list |} in
    match fst (FSLWrapper_call cmd sh (fs w)) with
    | Some e => (Raise e, w1)
    | None =>
        match glob_glob (fs w1) (out ++ "*") with
        | [] => (Raise IndexError, w1)
        | p :: _ => (Ok (PyStr p), w1)
        end
    end.
Proof.
  intros Hin. unfold fslreorient2std, bind, os_path_isfile. cbv zeta.
  rewrite Hin. cbn [negb]. unfold FSLWrapper_run, glob_first.
  destruct (FSLWrapper_call _ _ (fs w)) as [[e|] f1]; cbn; [reflexivity|].
  destruct (glob_glob f1 _); reflexivity.
Qed.

(** [apply_mask] once its input and its mask exist. *)
Lemma apply_mask_run inp root mask cfg w :
  isfile (fs w) inp = true -> isfile (fs w) mask = true ->
  apply_mask inp root mask cfg w =
    let cmd := ["fslmaths"; inp; "-mas"; mask; root] in
    let sh := default DEFAULT_FSL_PATH cfg in
    let w1 := {| fs := snd (FSLWrapper_call cmd sh (fs w));
                 trace := (trace w ++ [EvFSL cmd sh])%list |} in
    match fst (FSLWrapper_call cmd sh (fs w)) with
    | Some e => (Raise e, w1)
    | None =>
        match glob_glob (fs w1) (root ++ ".*") with
        | [] => (Raise IndexError, w1)
        | p :: _ => (Ok (PyStr p), w1)
        end
    end.
Proof.
  intros Hin Hmask. unfold apply_mask. cbv zeta. unfold bind at 1.
  change (for_each [inp; mask] _)
    with (for_each [inp; mask] (check_exists msg_not_valid)).
  rewrite for_each_check. simpl. rewrite Hin, Hmask. cbn [negb].
  unfold bind, FSLWrapper_run, glob_first.
  destruct (FSLWrapper_call _ _ (fs w)) as [[e|] f1]; cbn; [reflexivity|].
  destruct (glob_glob f1 _); reflexivity.
Qed.


End Glob.



(** ** Slicing along the last axis *)

Lemma length_pick (n T i : nat) (data : list Z) : length (pick n T i data) = n.
Proof.
  revert data. induction n as [|n IH]; intros data; simpl;
    [reflexivity | now rewrite IH].
Qed.

Lemma nth_pick (n T i : nat) (data : list Z) (j : nat) :
  (j < n)%nat -> nth j (pick n T i data) 0 = nth (j * T + i) data 0.
Proof.
  revert data j. induction n as [|n IH]; intros data [|j] Hj; simpl;
    try lia; try reflexivity.
  rewrite IH by lia. rewrite nth_skipn. f_equal. lia.
Qed.

Lemma fits_intp_true (i : Z) : - 2 ^ 63 <= i < 2 ^ 63 -> fits_intp i = true.
Proof.
  intros Hi. unfold fits_intp. apply andb_true_iff.
  split; [apply Z.leb_le | apply Z.ltb_lt]; lia.
Qed.

Section Extract.
Context `{ExternalTools}.

Lemma index_last_4d (a : ndarray) (nx ny nz nt : nat) (i : Z) :
  shape a = [nx; ny; nz; nt] -> 0 <= i < Z.of_nat nt ->
  Z.of_nat nt <= 2 ^ 63 ->
  index_last a i =
    Ok {| shape := [nx; ny; nz];
          elems := pick (nx * ny * nz) nt (Z.to_nat i) (elems a) |}.
Proof.
  intros Hs Hi Hlong. unfold index_last.
  rewrite fits_intp_true by lia. cbn [negb].
  rewrite Hs. cbn [rev app removelast].
  replace (- Z.of_nat nt <=? i)%Z with true by (symmetry; apply Z.leb_le; lia).
  replace (i <? Z.of_nat nt)%Z with true by (symmetry; apply Z.ltb_lt; lia).
  replace (i <? 0)%Z with false by (symmetry; apply Z.ltb_ge; lia).
  cbn [andb]. do 2 f_equal.
  replace (prod [nx; ny; nz]) with (nx * ny * nz)%nat
    by (unfold prod; simpl; lia).
  reflexivity.
Qed.

(** [extract_image], case by case. *)
Lemma extract_image_run (in_file : string) (index : Z)
    (out_file : option string) (w : World) :
  extract_image in_file index out_file w =
    let out := default (default_out_file in_file index) out_file in
    let w0 := {| fs := fs w; trace := (trace w ++ [EvRead in_file])%list |} in
    let w1 := {| fs := fs w; trace := (trace w0 ++ [EvWrite out])%list |} in
    match files (fs w) !! in_file with
    | None => (Raise (OSError in_file), w0)
    | Some (CNifti img) =>
        match index_last (get_data img) index with
        | Raise e => (Raise e, w0)
        | Ok arr =>
            match nifti_save {| get_data := arr; get_affine := get_affine img |}
                    out (fs w) with
            | Ok f' => (Ok (PyStr out), {| fs := f'; trace := trace w1 |})
            | Raise e => (Raise e, w1)
            end
        end
    | Some _ => (Raise (LibraryError "nibabel.load"), w0)
    end.
Proof.
  unfold extract_image, nibabel_load, nibabel_save, read_file,
    lift_result, bind. cbv beta zeta.
  destruct out_file as [out|]; cbn [default from_option id];
    destruct (files (fs w) !! in_file) as [[t|c|img|]|]; cbn;
    try reflexivity;
    destruct (index_last (get_data img) index) as [arr|e]; cbn;
    try reflexivity;
    destruct (nifti_save _ _ (fs w)); cbn; reflexivity.
Qed.

(** C3: for an input image whose array has shape (X, Y, Z, T) and an
    index [0 <= i < T], [extract_image] builds an array of shape
    (X, Y, Z) that holds at (x, y, z) the input value at (x, y, z, i),
    pairs it with the affine of the input and hands this image, with the
    output path, to [nibabel.save]; the call returns the output path when
    the save does, and when the save stores the image it is given at the
    path it is given, that file holds the slice with the affine of the
    input. *)
Theorem extract_image_slices_last_axis
    (w : World) (in_file : string) (out_file : option string) (img : Image)
    (nx ny nz nt : nat) (i : Z)
    (Hfile : files (fs w) !! in_file = Some (CNifti img))
    (Hshape : shape (get_data img) = [nx; ny; nz; nt])
    (Hindex : 0 <= i < Z.of_nat nt)
    (Hlong : Z.of_nat nt <= 2 ^ 63) :
  let out := default (default_out_file in_file i) out_file in
  let run := extract_image in_file i out_file w in
  exists arr : ndarray,
    let sliced := {| get_data := arr; get_affine := get_affine img |} in
    shape arr = [nx; ny; nz]
    /\ length (elems arr) = (nx * ny * nz)%nat
    /\ (forall x y z : nat,
          (x < nx)%nat -> (y < ny)%nat -> (z < nz)%nat ->
          get3 arr x y z = get4 (get_data img) x y z (Z.to_nat i))
    /\ run = bind (nibabel_save sliced out) (fun _ => ret (PyStr out))
               {| fs := fs w; trace := (trace w ++ [EvRead in_file])%list |}
    /\ (forall f',
          nifti_save sliced out (fs w) = Ok f' ->
          run = (Ok (PyStr out),
                 {| fs := f';
                    trace := (trace w ++ [EvRead in_file; EvWrite out])%list |}))
    /\ (nifti_save sliced out (fs w) = Ok (put_file out (CNifti sliced) (fs w)) ->
        fst run = Ok (PyStr out)
        /\ files (fs (snd run)) !! out = Some (CNifti sliced)).
Proof.
  intros out run. subst out run. rewrite extract_image_run. cbv zeta.
  rewrite Hfile, (index_last_4d _ _ _ _ _ _ Hshape Hindex Hlong).
  exists {| shape := [nx; ny; nz];
            elems := pick (nx * ny * nz) nt (Z.to_nat i)
                       (elems (get_data img)) |}.
  cbv zeta. split; [reflexivity|]. split; [apply length_pick|]. split.
  { intros x y z Hx Hy Hz. unfold get3, get4. rewrite Hshape.
    cbn [shape elems]. apply nth_pick.
    assert (x * ny + y < nx * ny)%nat by nia. nia. }
  split.
  { unfold bind, nibabel_save, ret. cbn [fs trace].
    now destruct (nifti_save _ _ (fs w)). }
  split.
  - intros f' Hsave. rewrite Hsave. cbn [trace]. now rewrite <- app_assoc.
  - intros Hsave. rewrite Hsave. split; [reflexivity|].
    cbn [snd fs put_file files]. apply lookup_insert_eq.
Qed.

(** C10: with an explicit [out_file], [extract_image] returns that very
    string whenever it returns, and it does return it when the image
    loads, the index is in range and [nibabel.save] succeeds; the only
    path it hands to [nibabel.save] is [out_file], so the derived name is
    not used; with [out_file] left out, the returned path is
    [extract{index}_{basename}.nii.gz] in the directory of the input. *)
Theorem extract_image_keeps_given_out_file
    (in_file : string) (index : Z) (out_file : string) (w : World) :
  returns (extract_image in_file index (Some out_file) w)
          (fun v w' => v = PyStr out_file
                       /\ last (trace w') = Some (EvWrite out_file))
  /\ (forall img arr f',
        files (fs w) !! in_file = Some (CNifti img) ->
        index_last (get_data img) index = Ok arr ->
        nifti_save {| get_data := arr; get_affine := get_affine img |}
          out_file (fs w) = Ok f' ->
        extract_image in_file index (Some out_file) w
        = (Ok (PyStr out_file),
           {| fs := f';
              trace := (trace w ++ [EvRead in_file; EvWrite out_file])%list |}))
  /\ (forall p,
        In (EvWrite p)
           (trace (snd (extract_image in_file index (Some out_file) w))) ->
        In (EvWrite p) (trace w) \/ p = out_file)
  /\ returns (extract_image in_file index None w)
          (fun v _ =>
             v = PyStr (os_path.join (os_path.dirname in_file)
                          ("extract" ++ Str.of_int index ++ "_"
                           ++ Str.split_head "." (os_path.basename in_file)
                           ++ ".nii.gz"))).
Proof.
  rewrite !extract_image_run. cbv zeta. cbn [default from_option id].
  repeat split.
  - destruct (files (fs w) !! in_file) as [[t|c|img|]|]; try exact I.
    destruct (index_last _ _); [|exact I].
    destruct (nifti_save _ _ _); [|exact I].
    cbn. split; [reflexivity|]. apply last_snoc.
  - intros img arr f' Hfile Harr Hsave. rewrite Hfile, Harr, Hsave.
    cbn [trace]. now rewrite <- app_assoc.
  - intros p.
    destruct (files (fs w) !! in_file) as [[t|c|img|]|];
      try (cbn [snd trace]; rewrite in_app_iff; simpl;
           intros [Hp|[Hp|[]]]; [now left | discriminate Hp]).
    destruct (index_last _ _);
      [|cbn [snd trace]; rewrite in_app_iff; simpl;
        intros [Hp|[Hp|[]]]; [now left | discriminate Hp]].
    destruct (nifti_save _ _ _); cbn [snd trace]; rewrite !in_app_iff; simpl;
      (intros [[Hp|[Hp|[]]]|[Hp|[]]];
       [now left | discriminate Hp | right; congruence]).
  - destruct (files (fs w) !! in_file) as [[t|c|img|]|]; try exact I.
    destruct (index_last _ _); [|exact I].
    destruct (nifti_save _ _ _); [|exact I].
    reflexivity.
Qed.

End Extract.

Lemma extract_image_witness :
  let run := @extract_image sample_tools "/data/dwi.nii.gz" 1 None
               sample_world in
  fst run = Ok (PyStr "/data/extract1_dwi.nii.gz")
  /\ exists arr : ndarray,
       files (fs (snd run)) !! "/data/extract1_dwi.nii.gz"
       = Some (CNifti {| get_data := arr;
                         get_affine := get_affine sample_image |})
       /\ shape arr = [1; 2; 1]%nat
       /\ get3 arr 0 0 0 = 11 /\ get3 arr 0 1 0 = 21.
Proof.
  intros run.
  assert (files (fs sample_world) !! "/data/dwi.nii.gz"
          = Some (CNifti sample_image)) as Hfile by (vm_compute; reflexivity).
  assert (0 <= 1 < Z.of_nat 3) as Hindex by lia.
  assert (Z.of_nat 3 <= 2 ^ 63) as Hlong by lia.
  destruct (@extract_image_slices_last_axis sample_tools sample_world
              "/data/dwi.nii.gz" None sample_image 1 2 1 3 1
              Hfile eq_refl Hindex Hlong)
    as (arr & Hs & _ & Hget & Hrun & _ & Hstore).
  cbv zeta in Hstore.
  assert (arr = {| shape := [1; 2; 1]%nat; elems := [11; 21] |}) as Harr.
  { destruct arr as [sh el]. cbn [shape] in Hs. subst sh.
    vm_compute in Hrun. injection Hrun as Hel. now rewrite Hel. }
  subst arr.
  destruct (Hstore ltac:(vm_compute; reflexivity)) as [Hret Hout].
  split; [exact Hret|].
  eexists. split; [exact Hout|]. split; [reflexivity|].
  split; (rewrite Hget by lia; vm_compute; reflexivity).
Defined.

Lemma extract_image_out_file_witness :
  let run := @extract_image sample_tools "/data/dwi.nii.gz" 2
               (Some "/data/vol2.nii") sample_world in
  fst run = Ok (PyStr "/data/vol2.nii")
  /\ trace (snd run) = [EvRead "/data/dwi.nii.gz"; EvWrite "/data/vol2.nii"].
Proof.
  intros run.
  destruct (@extract_image_keeps_given_out_file sample_tools
              "/data/dwi.nii.gz" 2 "/data/vol2.nii" sample_world)
    as (_ & Hret & _ & _).
  subst run.
  erewrite (Hret sample_image);
    [split; reflexivity | vm_compute; reflexivity
     | vm_compute; reflexivity | vm_compute; reflexivity].
Defined.

(** ** VTK cells to fibers *)

Lemma collect_loop (cells : list fiber) (l : list nat)
    (acc : list array_ref) (m : vtk_mem) :
  fst (fold_left (fiber_step cells) l (acc, m))
  = (acc ++ map (fun i => Owned (nth i cells [])) l)%list.
Proof.
  revert acc m. induction l as [|i l IH]; intros acc m; simpl.
  - now rewrite app_nil_r.
  - rewrite IH. now rewrite <- app_assoc.
Qed.

Lemma map_nth_seq (cells : list fiber) :
  map (fun i => nth i cells []) (seq 0 (length cells)) = cells.
Proof.
  apply list_eq. intros i. rewrite list_lookup_fmap.
  destruct (decide (i < length cells)%nat) as [Hi|Hi].
  - rewrite lookup_seq_lt by assumption. simpl.
    destruct (lookup_lt_is_Some_2 cells i Hi) as [c Hc].
    rewrite Hc. f_equal. now apply nth_lookup_Some with (d := []).
  - rewrite lookup_seq_ge by lia. symmetry. apply lookup_ge_None. lia.
Qed.

(** The arrays of the loop, read when the tractogram is built, are the
    cells. *)
Lemma collected_cells (cells : list fiber) (m : vtk_mem) :
  map (deref (snd (collect_fibers cells m))) (fst (collect_fibers cells m))
  = cells.
Proof.
  unfold collect_fibers at 2. rewrite collect_loop. simpl.
  rewrite map_map. simpl. apply map_nth_seq.
Qed.

Lemma mitk_streamlines (cells : list fiber) (m : vtk_mem) :
  streamlines (mitk_tractogram cells m) = List.filter nonempty cells.
Proof.
  unfold mitk_tractogram. pose proof (collected_cells cells m) as Hc.
  destruct (collect_fibers cells m) as [fibers m']. simpl in *.
  unfold ArraySequence. now rewrite Hc.
Qed.

Lemma mitk_affine (cells : list fiber) (m : vtk_mem) :
  affine_to_rasmm (mitk_tractogram cells m) = lps_to_ras.
Proof.
  unfold mitk_tractogram. now destruct (collect_fibers cells m).
Qed.

Lemma apply_lps_to_ras (p : point) : apply_affine lps_to_ras p = flip_xy p.
Proof.
  destruct p as [[x y] z]. unfold apply_affine, flip_xy, entry. simpl.
  f_equal; [f_equal|]; lia.
Qed.

Lemma mitk_tck_points (cells : list fiber) (m : vtk_mem) :
  tck_points (mitk_tractogram cells m) = tck_of_cells cells.
Proof.
  unfold tck_points, tck_of_cells, to_world.
  rewrite mitk_streamlines, mitk_affine, map_map.
  apply map_ext. intros f. rewrite map_map. apply map_ext. intros p.
  now rewrite apply_lps_to_ras.
Qed.

Lemma filter_nonempty_id (cells : list fiber) :
  Forall (fun c => c <> []) cells -> List.filter nonempty cells = cells.
Proof.
  induction 1 as [|c cells Hc _ IH]; [reflexivity|].
  simpl. destruct c; [contradiction|]. simpl. now rewrite IH.
Qed.

Lemma lookup_length_map {A B} (f : A -> B) (l : list (list A)) (i : nat) :
  length <$> map (map f) l !! i = length <$> l !! i.
Proof.
  revert i. induction l as [|c l IH]; intros [|i]; simpl; try reflexivity.
  - now rewrite length_map.
  - apply IH.
Qed.

(** A 32-bit float holds every integer up to [2^24] in magnitude. *)
Lemma to_float32_small (x : Z) : Z.abs x <= 2 ^ 24 -> to_float32 x = F32 x.
Proof.
  intros Hx. unfold to_float32.
  destruct (Z.abs x <? 2 ^ 24)%Z eqn:Hlt; [reflexivity|].
  apply Z.ltb_ge in Hlt.
  assert (x = 2 ^ 24 \/ x = - 2 ^ 24) as [-> | ->] by lia; reflexivity.
Qed.

Section Mitk.
Context `{ExternalTools}.

(** The run of [convert_mitk_vtk_fibers_to_tck] once its input exists and
    its output path can be written. *)
Lemma convert_mitk_run (vtk tck : string) (w : World) :
  isfile (fs w) vtk = true -> can_write (fs w) (add_tck tck) = true ->
  convert_mitk_vtk_fibers_to_tck vtk tck w
  = (Ok (PyStr (add_tck tck)),
     {| fs := put_file (add_tck tck)
                (CTract {| format := FmtTCK;
                           header := tck_header
                                       (tck_of_cells (polydata_of (fs w) vtk));
                           file_streamlines :=
                             tck_of_cells (polydata_of (fs w) vtk) |})
                (fs w);
        trace := (trace w ++ [EvRead vtk; EvWrite (add_tck tck)])%list |}).
Proof.
  intros Hin Hout.
  unfold convert_mitk_vtk_fibers_to_tck, bind, os_path_isfile,
    vtkPolyDataReader_read, TckFile_save, write_file.
  cbv beta zeta. rewrite Hin. cbn [negb]. unfold polydata_of.
  destruct (files (fs w) !! vtk) as [[t|cs|img|]|]; cbn [fs trace];
    rewrite Hout, mitk_tck_points; cbn [ret]; now rewrite <- app_assoc.
Qed.

(** The converter hands [TckFile.save] the tractogram built from the
    cells of its input. *)
Lemma convert_mitk_saves (vtk tck : string) (w : World) :
  isfile (fs w) vtk = true ->
  convert_mitk_vtk_fibers_to_tck vtk tck w
  = bind (TckFile_save (mitk_tractogram (polydata_of (fs w) vtk)
                          {| buffer := [] |}) (add_tck tck))
         (fun _ => ret (PyStr (add_tck tck)))
         {| fs := fs w; trace := (trace w ++ [EvRead vtk])%list |}.
Proof.
  intros Hin.
  unfold convert_mitk_vtk_fibers_to_tck, bind at 1, os_path_isfile.
  cbv beta zeta. rewrite Hin. cbn [negb].
  unfold bind at 1, vtkPolyDataReader_read, polydata_of.
  now destruct (files (fs w) !! vtk) as [[t|cs|img|]|].
Qed.

(** C2, amended: the tractogram that [convert_mitk_vtk_fibers_to_tck]
    builds has one fiber for each cell that has points, in the order of
    the cells, with the points of its cell (when no cell is empty: as
    many fibers as cells, the i-th fiber being the i-th cell); every
    array of the list of fibers is a copy of its own, none is the buffer
    of the reader; and the run, which returns when the input exists and
    the output can be written, leaves a TCK file with one streamline for
    each cell that has points, of as many points. *)
Theorem one_fiber_per_nonempty_cell
    (w : World) (vtk tck : string)
    (Hin : isfile (fs w) vtk = true)
    (Hout : can_write (fs w) (add_tck tck) = true) :
  let cells := polydata_of (fs w) vtk in
  let tractogram := mitk_tractogram cells {| buffer := [] |} in
  let run := convert_mitk_vtk_fibers_to_tck vtk tck w in
  streamlines tractogram = List.filter nonempty cells
  /\ (Forall (fun c => c <> []) cells ->
      length (streamlines tractogram) = length cells
      /\ forall i : nat, streamlines tractogram !! i = cells !! i)
  /\ Forall (fun a => a <> SharedBuffer)
            (fst (collect_fibers cells {| buffer := [] |}))
  /\ run = bind (TckFile_save tractogram (add_tck tck))
             (fun _ => ret (PyStr (add_tck tck)))
             {| fs := fs w; trace := (trace w ++ [EvRead vtk])%list |}
  /\ fst run = Ok (PyStr (add_tck tck))
  /\ exists t : TractFile,
       files (fs (snd run)) !! add_tck tck = Some (CTract t)
       /\ format t = FmtTCK
       /\ length (file_streamlines t) = length (List.filter nonempty cells)
       /\ forall i : nat,
            length <$> file_streamlines t !! i
            = length <$> List.filter nonempty cells !! i.
Proof.
  intros cells tractogram run. subst tractogram run.
  rewrite mitk_streamlines. split; [reflexivity|]. split.
  { intros Hall. now rewrite filter_nonempty_id. }
  split.
  { unfold collect_fibers. rewrite collect_loop. simpl.
    apply Forall_forall. intros a Ha. apply list_elem_of_In in Ha.
    apply in_map_iff in Ha as (i & <- & _). discriminate. }
  split; [now apply convert_mitk_saves|].
  rewrite convert_mitk_run by assumption. split; [reflexivity|].
  eexists. split; [apply lookup_insert_eq|]. split; [reflexivity|].
  cbn [file_streamlines]. unfold tck_of_cells. fold cells.
  split; [apply length_map|]. intros i. apply lookup_length_map.
Qed.

(** C1: once the input exists and the output can be written,
    [convert_mitk_vtk_fibers_to_tck] hands [TckFile.save] a tractogram
    whose affine is diag(-1, -1, 1, 1), which maps a point (x, y, z) to
    (-x, -y, z); the call returns, and the TCK file it leaves holds every
    point of the tractogram with x and y negated, as 32-bit floats
    (exactly, for coordinates up to [2^24] in magnitude). *)
Theorem lps_to_ras_affine_negates_x_and_y
    (w : World) (vtk tck : string)
    (Hin : isfile (fs w) vtk = true)
    (Hout : can_write (fs w) (add_tck tck) = true) :
  let tractogram := mitk_tractogram (polydata_of (fs w) vtk)
                      {| buffer := [] |} in
  let run := convert_mitk_vtk_fibers_to_tck vtk tck w in
  run = bind (TckFile_save tractogram (add_tck tck))
          (fun _ => ret (PyStr (add_tck tck)))
          {| fs := fs w; trace := (trace w ++ [EvRead vtk])%list |}
  /\ affine_to_rasmm tractogram
     = [[-1; 0; 0; 0]; [0; -1; 0; 0]; [0; 0; 1; 0]; [0; 0; 0; 1]]
  /\ (forall x y z : Z,
        apply_affine (affine_to_rasmm tractogram) (x, y, z) = (- x, - y, z))
  /\ fst run = Ok (PyStr (add_tck tck))
  /\ (exists t : TractFile,
        files (fs (snd run)) !! add_tck tck = Some (CTract t)
        /\ format t = FmtTCK
        /\ file_streamlines t
           = map (map (fun p => to_point32 (flip_xy p)))
                 (streamlines tractogram))
  /\ (forall x y z : Z,
        Z.abs x <= 2 ^ 24 -> Z.abs y <= 2 ^ 24 -> Z.abs z <= 2 ^ 24 ->
        to_point32 (flip_xy (x, y, z)) = (F32 (- x), F32 (- y), F32 z)).
Proof.
  intros tractogram run. subst tractogram run.
  split; [now apply convert_mitk_saves|].
  rewrite mitk_affine. split; [reflexivity|]. split.
  { intros x y z. apply (apply_lps_to_ras (x, y, z)). }
  rewrite convert_mitk_run by assumption. split; [reflexivity|]. split.
  - eexists. split; [apply lookup_insert_eq|]. split; [reflexivity|].
    cbn [file_streamlines]. now rewrite mitk_streamlines.
  - intros x y z Hx Hy Hz. unfold flip_xy, to_point32.
    rewrite !to_float32_small by lia. reflexivity.
Qed.

End Mitk.

(** A polydata with the single point (1, 2, 3). *)
Example single_point_polydata :
  to_world (mitk_tractogram [[(1, 2, 3)]] {| buffer := [] |})
  = [[(-1, -2, 3)]].
Proof. reflexivity. Qed.

(** A coordinate that a 32-bit float does not hold is stored rounded. *)
Example rounded_coordinate :
  to_float32 (- 16777217) = F32 (- 16777216)
  /\ to_float32 16777219 = F32 16777220
  /\ to_float32 (2 ^ 128) = F32_inf false.
Proof. repeat split. Qed.

(** Without [numpy.array] every entry of the list is the buffer of the
    reader, which holds the last cell. *)
Example fibers_without_copy :
  let '(fibers, m') := collect_fibers_nocopy sample_cells {| buffer := [] |} in
  map (deref m') fibers = [[(4, 5, 6); (7, 8, 9)]; [(4, 5, 6); (7, 8, 9)]].
Proof. reflexivity. Qed.

Lemma one_fiber_per_nonempty_cell_witness :
  let run := @convert_mitk_vtk_fibers_to_tck sample_tools
               "/data/fibers.fib" "/data/out" sample_world in
  fst run = Ok (PyStr "/data/out.tck")
  /\ exists t : TractFile,
       files (fs (snd run)) !! "/data/out.tck" = Some (CTract t)
       /\ length (file_streamlines t) = 2%nat
       /\ length <$> file_streamlines t !! 1%nat = Some 2%nat.
Proof.
  intros run.
  destruct (@one_fiber_per_nonempty_cell sample_tools sample_world
              "/data/fibers.fib" "/data/out"
              ltac:(vm_compute; reflexivity) ltac:(vm_compute; reflexivity))
    as (_ & _ & _ & _ & Hret & t & Hfile & _ & Hlen & Hith).
  split; [exact Hret|].
  exists t. split; [exact Hfile|]. split.
  - rewrite Hlen. reflexivity.
  - rewrite Hith. reflexivity.
Defined.

(** C2 as stated fails: of three cells with one, no and two points the
    tractogram keeps two fibers, and the second fiber has the two points
    of the third cell. *)
Lemma empty_cell_is_dropped :
  let tractogram := mitk_tractogram gap_cells {| buffer := [] |} in
  let run := @convert_mitk_vtk_fibers_to_tck sample_tools
               "/data/gap.fib" "/data/gap.tck" sample_world in
  length gap_cells = 3%nat
  /\ length (streamlines tractogram) = 2%nat
  /\ length <$> gap_cells !! 1%nat = Some 0%nat
  /\ length <$> streamlines tractogram !! 1%nat = Some 2%nat
  /\ fst run = Ok (PyStr "/data/gap.tck")
  /\ files (fs (snd run)) !! "/data/gap.tck"
     = Some (CTract {| format := FmtTCK;
                       header := {[ "datatype" := "Float32LE" ]};
                       file_streamlines :=
                         [[(F32 (-1), F32 (-2), F32 3)];
                          [(F32 (-4), F32 (-5), F32 6);
                           (F32 (-7), F32 (-8), F32 9)]] |}).
Proof. repeat split; vm_compute; reflexivity. Qed.

Lemma lps_to_ras_witness :
  let run := @convert_mitk_vtk_fibers_to_tck sample_tools
               "/data/fibers.fib" "/data/out" sample_world in
  fst run = Ok (PyStr "/data/out.tck")
  /\ exists t : TractFile,
       files (fs (snd run)) !! "/data/out.tck" = Some (CTract t)
       /\ file_streamlines t
          = [[(F32 (-1), F32 (-2), F32 3)];
             [(F32 (-4), F32 (-5), F32 6); (F32 (-7), F32 (-8), F32 9)]].
Proof.
  intros run.
  destruct (@lps_to_ras_affine_negates_x_and_y sample_tools sample_world
              "/data/fibers.fib" "/data/out"
              ltac:(vm_compute; reflexivity) ltac:(vm_compute; reflexivity))
    as (_ & _ & _ & Hret & (t & Hfile & _ & Hpts) & _).
  split; [exact Hret|].
  exists t. split; [exact Hfile|]. rewrite Hpts. vm_compute. reflexivity.
Defined.

(** ** The temporary directory of the TRK converter *)

Lemma bind_ok {A B} (m : M A) (k : A -> M B) w b w2 :
  bind m k w = (Ok b, w2) ->
  exists a w1, m w = (Ok a, w1) /\ k a w1 = (Ok b, w2).
Proof.
  unfold bind. destruct (m w) as [[a|e] w1]; intros Hk.
  - now exists a, w1.
  - discriminate Hk.
Qed.

Lemma grows_step {A} (m : M A) w r w' :
  grows m -> m w = (r, w') -> exists l, trace w' = (trace w ++ l)%list.
Proof. intros Hg Hm. destruct (Hg w) as [l Hl]. rewrite Hm in Hl. eauto. Qed.

Section TempDir.
Context `{ExternalTools}.

Lemma grows_write p c : grows (write_file p c).
Proof.
  intros w. unfold write_file. exists [EvWrite p].
  now destruct (can_write (fs w) p).
Qed.

Lemma grows_load p : grows (nibabel_streamlines_load p).
Proof.
  intros w. unfold nibabel_streamlines_load, read_file, bind.
  exists [EvRead p].
  now destruct (files (fs w) !! p) as [[t|c|img|]|].
Qed.

Lemma grows_TRK p : grows (tractconverter_TRK p).
Proof.
  intros w. unfold tractconverter_TRK. exists [EvRead p].
  now destruct (tc_TRK p (fs w)).
Qed.

Lemma grows_TCK_create p trk anat : grows (tractconverter_TCK_create p trk anat).
Proof.
  intros w. unfold tractconverter_TCK_create. exists [EvWrite p].
  now destruct (tc_TCK_create p trk anat (fs w)) as [[e|] f'].
Qed.

Lemma grows_convert trk tck : grows (tractconverter_convert trk tck).
Proof.
  intros w. unfold tractconverter_convert. exists [EvConvert trk tck].
  now destruct (tc_convert trk tck (fs w)) as [o f'].
Qed.

Lemma mkdtemp_ok prefix dir w d w1 :
  tempfile_mkdtemp prefix dir w = (Ok d, w1) ->
  exists_path (fs w) d = false
  /\ w1 = {| fs := {| files := files (fs w); dirs := {[d]} ∪ dirs (fs w) |};
             trace := (trace w ++ [EvMkdtemp d])%list |}.
Proof.
  unfold tempfile_mkdtemp.
  destruct (negb (bool_decide (default gettempdir dir ∈ dirs (fs w))));
    [discriminate|].
  destruct (find _ candidate_names) as [n|] eqn:Hfind; [|discriminate].
  intros Heq. injection Heq as <- <-.
  apply find_some in Hfind as [_ Hfresh].
  apply negb_true_iff in Hfresh. now split.
Qed.

Lemma rmtree_ok d w w1 :
  shutil_rmtree d w = (Ok tt, w1) ->
  w1 = {| fs := remove_tree d (fs w);
          trace := (trace w ++ [EvRmtree d])%list |}.
Proof.
  unfold shutil_rmtree. destruct (bool_decide (d ∈ dirs (fs w)));
    intros Heq; [now injection Heq as <- | discriminate].
Qed.

Lemma remove_tree_gone d f :
  (d ∉ dirs (remove_tree d f))
  /\ forall p, under d p = true ->
       files (remove_tree d f) !! p = None /\ (p ∉ dirs (remove_tree d f)).
Proof.
  unfold remove_tree. cbn [files dirs]. split.
  - rewrite elem_of_filter. tauto.
  - intros p Hp. split.
    + apply map_lookup_filter_None. right. intros c _ Hc.
      unfold under in *. cbn in Hc. congruence.
    + rewrite elem_of_filter. intros [[_ Hu] _]. congruence.
Qed.

(** C7, amended: when [convert_connectomist_trk_fibers_to_tck] returns,
    the fresh directory that [tempfile.mkdtemp] made for it is gone,
    with everything under it, and removing it was the last action of
    the call. *)
Theorem tempdir_removed_when_conversion_returns
    (dwi trk tck : string) (td : option string) (w w' : World) (v : pyval)
    (Hrun : convert_connectomist_trk_fibers_to_tck dwi trk tck td w
            = (Ok v, w')) :
  exists d : string,
    fst (tempfile_mkdtemp "tractconverter_" td w) = Ok d
    /\ exists_path (fs w) d = false
    /\ In (EvMkdtemp d) (trace w')
    /\ last (trace w') = Some (EvRmtree d)
    /\ (d ∉ dirs (fs w'))
    /\ forall p, under d p = true ->
         files (fs w') !! p = None /\ (p ∉ dirs (fs w')).
Proof.
  unfold convert_connectomist_trk_fibers_to_tck in Hrun. cbv zeta in Hrun.
  apply bind_ok in Hrun as (u & w0 & Hchk & Hrun).
  change (for_each [dwi; trk] _)
    with (for_each [dwi; trk] (check_exists msg_not_exist)) in Hchk.
  rewrite for_each_check in Hchk.
  destruct (find _ [dwi; trk]); [discriminate|]. injection Hchk as _ <-.
  apply bind_ok in Hrun as (d & w1 & Hmk & Hrun).
  apply bind_ok in Hrun as (t & w2 & Hload & Hrun).
  apply bind_ok in Hrun as (u2 & w3 & Hsave & Hrun).
  apply bind_ok in Hrun as (h1 & w4 & Htrk & Hrun).
  apply bind_ok in Hrun as (h2 & w5 & Hcreate & Hrun).
  apply bind_ok in Hrun as (u3 & w6 & Hconv & Hrun).
  apply bind_ok in Hrun as ([] & w7 & Hrm & Hrun).
  injection Hrun as _ <-.
  exists d. rewrite Hmk.
  apply mkdtemp_ok in Hmk as [Hfresh ->].
  apply rmtree_ok in Hrm as ->.
  apply (grows_step _ _ _ _ (grows_load _)) in Hload as [l2 E2].
  apply (grows_step _ _ _ _ (grows_write _ _)) in Hsave as [l3 E3].
  apply (grows_step _ _ _ _ (grows_TRK _)) in Htrk as [l4 E4].
  apply (grows_step _ _ _ _ (grows_TCK_create _ _ _)) in Hcreate as [l5 E5].
  apply (grows_step _ _ _ _ (grows_convert _ _)) in Hconv as [l6 E6].
  cbn [trace fs] in *.
  split; [reflexivity|]. split; [exact Hfresh|]. split.
  - rewrite E6, E5, E4, E3, E2. rewrite !in_app_iff. simpl. tauto.
  - split; [apply last_snoc|]. apply remove_tree_gone.
Qed.

End TempDir.

Lemma tempdir_removed_witness :
  let run := @convert_connectomist_trk_fibers_to_tck sample_tools
               "/data/dwi.nii.gz" "/data/fibers.trk" "/data/out" None
               sample_world in
  fst run = Ok (PyStr "/data/out.tck")
  /\ exists d : string,
       In (EvMkdtemp d) (trace (snd run)) /\ (d ∉ dirs (fs (snd run))).
Proof.
  intros run. split; [vm_compute; reflexivity|].
  destruct (@tempdir_removed_when_conversion_returns sample_tools
              "/data/dwi.nii.gz" "/data/fibers.trk" "/data/out" None
              sample_world (snd run) (PyStr "/data/out.tck")
              ltac:(vm_compute; reflexivity))
    as (d & _ & _ & Hin & _ & Hgone & _).
  exists d. now split.
Defined.

(** C7 as stated fails: when the TRK file cannot be loaded the call
    raises after the temporary directory has been made, and the directory
    is still there when the call ends. *)
Lemma tempdir_left_when_conversion_fails :
  let run := @convert_connectomist_trk_fibers_to_tck sample_tools
               "/data/dwi.nii.gz" "/data/broken.trk" "/data/out" None
               sample_world in
  fst run = Raise (LibraryError "nibabel.streamlines.load")
  /\ trace (snd run) = [EvMkdtemp "/tmp/tractconverter_a1b2c3d4";
                        EvRead "/data/broken.trk"]
  /\ ("/tmp/tractconverter_a1b2c3d4" ∉ dirs (fs sample_world))
  /\ ("/tmp/tractconverter_a1b2c3d4" ∈ dirs (fs (snd run))).
Proof.
  intros run. split; [vm_compute; reflexivity|].
  split; [vm_compute; reflexivity|]. split.
  - apply (bool_decide_unpack _). vm_compute. exact I.
  - apply (bool_decide_unpack _). vm_compute. exact I.
Qed.

(** * Further properties *)

(** ** Characters of a path *)

Lemma contains_app (c : ascii) (s t : string) :
  contains_char c (s ++ t) = contains_char c s || contains_char c t.
Proof.
  induction s as [|a s IH]; [reflexivity|].
  rewrite app_cons. simpl. rewrite IH. apply orb_assoc.
Qed.

Lemma all_char_app (c : ascii) (s t : string) :
  all_char c (s ++ t) = all_char c s && all_char c t.
Proof.
  induction s as [|a s IH]; [reflexivity|].
  rewrite app_cons. simpl. rewrite IH. apply andb_assoc.
Qed.

Lemma app_assoc_str (s t u : string) : (s ++ t) ++ u = s ++ (t ++ u).
Proof.
  induction s as [|a s IH]; [reflexivity|].
  rewrite !app_cons. now rewrite IH.
Qed.

(** A string either has no [c], or splits at its last [c]. *)
Lemma split_at_last (c : ascii) (s : string) :
  contains_char c s = false
  \/ exists s1 s2, s = s1 ++ String c s2 /\ contains_char c s2 = false.
Proof.
  induction s as [|a s IH]; [now left|].
  destruct IH as [Hfree | (s1 & s2 & -> & Hfree)].
  - destruct (Ascii.eqb a c) eqn:Hac.
    + right. apply Ascii.eqb_eq in Hac as ->. now exists "", s.
    + left. simpl. now rewrite Hac.
  - right. now exists (String a s1), s2.
Qed.

Lemma rfind_from_free (c : ascii) (s : string) (pos : nat) (acc : Z) :
  contains_char c s = false -> Str.rfind_from c s pos acc = acc.
Proof.
  revert pos acc. induction s as [|a s IH]; intros pos acc Hfree;
    [reflexivity|].
  simpl in *. apply orb_false_iff in Hfree as [Hac Hfree].
  rewrite Hac. now apply IH.
Qed.

Lemma rfind_from_last (c : ascii) (s1 s2 : string) (pos : nat) (acc : Z) :
  contains_char c s2 = false ->
  Str.rfind_from c (s1 ++ String c s2) pos acc
  = Z.of_nat (pos + String.length s1).
Proof.
  intros Hfree. revert pos acc.
  induction s1 as [|a s1 IH]; intros pos acc.
  - simpl. rewrite Ascii.eqb_refl, rfind_from_free by assumption.
    f_equal. lia.
  - rewrite app_cons. simpl. rewrite IH. f_equal. lia.
Qed.

Lemma take_app (s t : string) : Str.take (String.length s) (s ++ t) = s.
Proof.
  unfold Str.take. induction s as [|a s IH].
  - simpl. now destruct t.
  - rewrite app_cons. simpl. now rewrite IH.
Qed.

Lemma eqb_repeat (c : ascii) (s : string) :
  String.eqb s (Str.repeat c (String.length s)) = all_char c s.
Proof.
  induction s as [|a s IH]; [reflexivity|].
  simpl. rewrite IH. now destruct (Ascii.eqb a c).
Qed.

Lemma rstrip_snoc (c : ascii) (s : string) :
  Str.rstrip c (s ++ String c "") = Str.rstrip c s.
Proof.
  induction s as [|a s IH].
  - simpl. now rewrite Ascii.eqb_refl.
  - rewrite app_cons. simpl. now rewrite IH.
Qed.

Lemma rstrip_idem (c : ascii) (s : string) :
  Str.rstrip c (Str.rstrip c s) = Str.rstrip c s.
Proof.
  induction s as [|a s IH]; [reflexivity|].
  simpl. destruct (Str.rstrip c s) as [|b r] eqn:Hr.
  - destruct (Ascii.eqb a c) eqn:Hac; [reflexivity|].
    simpl. now rewrite Hac.
  - simpl in *. now rewrite IH.
Qed.

Lemma rstrip_empty (c : ascii) (s : string) :
  Str.rstrip c s = "" <-> all_char c s = true.
Proof.
  induction s as [|a s IH]; [easy|].
  simpl. destruct (Str.rstrip c s) as [|b r] eqn:Hr.
  - destruct (Ascii.eqb a c); simpl.
    + split; [intros _; now apply IH | reflexivity].
    + split; discriminate.
  - split; [discriminate|]. intros Hall.
    apply andb_true_iff in Hall as [_ Hall]. apply IH in Hall. discriminate.
Qed.

Lemma rstrip_no_trailing (c : ascii) (s q : string) :
  Str.rstrip c s <> q ++ String c "".
Proof.
  revert q. induction s as [|a s IH]; intros q Heq.
  - destruct q; discriminate.
  - simpl in Heq. destruct (Str.rstrip c s) as [|b r] eqn:Hr.
    + destruct (Ascii.eqb a c) eqn:Hac.
      * destruct q; discriminate.
      * destruct q as [|a' q].
        -- injection Heq as ->. now rewrite Ascii.eqb_refl in Hac.
        -- rewrite app_cons in Heq. injection Heq as _ Heq.
           destruct q; discriminate.
    + destruct q as [|a' q].
      * discriminate.
      * rewrite app_cons in Heq. injection Heq as _ Heq.
        now apply (IH q).
Qed.

(** ** [dirname] and [basename] at the last slash *)

Lemma dirname_free (s : string) :
  contains_char "/" s = false -> os_path.dirname s = "".
Proof.
  intros Hfree. unfold os_path.dirname, Str.rfind, os_path.sep.
  rewrite rfind_from_free by assumption. simpl. now destruct s.
Qed.

Lemma basename_free (s : string) :
  contains_char "/" s = false -> os_path.basename s = s.
Proof.
  intros Hfree. unfold os_path.basename, Str.rfind, os_path.sep.
  rewrite rfind_from_free by assumption. simpl. unfold Str.drop.
  rewrite Nat.sub_0_r. apply substring_all.
Qed.

Lemma last_slash_index (s1 s2 : string) :
  contains_char "/" s2 = false ->
  Z.to_nat (Str.rfind os_path.sep (s1 ++ String "/" s2) + 1)
  = String.length (s1 ++ "/").
Proof.
  intros Hfree. unfold Str.rfind, os_path.sep.
  rewrite rfind_from_last by assumption. rewrite length_app. simpl. lia.
Qed.

Lemma dirname_split (s1 s2 : string) :
  contains_char "/" s2 = false ->
  os_path.dirname (s1 ++ String "/" s2)
  = if all_char "/" s1 then s1 ++ "/" else Str.rstrip "/" s1.
Proof.
  intros Hfree. unfold os_path.dirname.
  rewrite last_slash_index by assumption.
  replace (s1 ++ String "/" s2) with ((s1 ++ "/") ++ s2)
    by (now rewrite app_assoc_str).
  rewrite take_app. unfold os_path.sep. rewrite eqb_repeat, all_char_app.
  simpl all_char at 2. rewrite andb_true_r.
  replace (String.eqb (s1 ++ "/") "") with false
    by (now destruct s1).
  cbn [negb andb]. destruct (all_char "/" s1); cbn [negb].
  - reflexivity.
  - apply rstrip_snoc.
Qed.

Lemma basename_split (s1 s2 : string) :
  contains_char "/" s2 = false ->
  os_path.basename (s1 ++ String "/" s2) = s2.
Proof.
  intros Hfree. unfold os_path.basename.
  rewrite last_slash_index by assumption.
  replace (s1 ++ String "/" s2) with ((s1 ++ "/") ++ s2)
    by (now rewrite app_assoc_str).
  apply drop_app.
Qed.

Lemma basename_no_slash (p : string) :
  contains_char "/" (os_path.basename p) = false.
Proof.
  destruct (split_at_last "/" p) as [Hfree | (s1 & s2 & -> & Hfree)].
  - now rewrite basename_free.
  - now rewrite basename_split.
Qed.

(** What [dirname] hands back: nothing, slashes only, or a path that
    does not end with a slash. *)
Lemma dirname_shape (p : string) :
  let d := os_path.dirname p in
  d = ""
  \/ (exists q, d = q ++ "/" /\ all_char "/" q = true)
  \/ (d <> "" /\ all_char "/" d = false /\ Str.rstrip "/" d = d).
Proof.
  destruct (split_at_last "/" p) as [Hfree | (s1 & s2 & -> & Hfree)]; cbv zeta.
  - left. now apply dirname_free.
  - right. rewrite dirname_split by assumption.
    destruct (all_char "/" s1) eqn:Hall.
    + left. now exists s1.
    + right. assert (Str.rstrip "/" s1 <> "") as Hne.
      { intros He. apply rstrip_empty in He. congruence. }
      split; [exact Hne|]. split; [|apply rstrip_idem].
      destruct (all_char "/" (Str.rstrip "/" s1)) eqn:Hall'; [|reflexivity].
      apply rstrip_empty in Hall'. rewrite rstrip_idem in Hall'. contradiction.
Qed.

Lemma split_head_no_slash (sep : ascii) (s : string) :
  contains_char "/" s = false ->
  contains_char "/" (Str.split_head sep s) = false.
Proof.
  induction s as [|a s IH]; [reflexivity|].
  simpl. intros Hfree. apply orb_false_iff in Hfree as [Ha Hfree].
  destruct (Ascii.eqb a sep); [reflexivity|].
  simpl. rewrite Ha. now apply IH.
Qed.

Lemma uint_no_slash (d : Decimal.uint) :
  contains_char "/" (NilEmpty.string_of_uint d) = false.
Proof. induction d; simpl; auto. Qed.

Lemma of_int_no_slash (n : Z) : contains_char "/" (Str.of_int n) = false.
Proof.
  unfold Str.of_int, NilZero.string_of_int, NilZero.string_of_uint.
  destruct (Z.to_int n) as [d|d]; destruct d; simpl;
    auto using uint_no_slash.
Qed.

Lemma default_name_no_slash (in_file : string) (index : Z) :
  contains_char "/" (default_name in_file index) = false.
Proof.
  unfold default_name. rewrite !contains_app.
  rewrite of_int_no_slash, split_head_no_slash by apply basename_no_slash.
  reflexivity.
Qed.

Lemma join_default_name (d in_file : string) (index : Z) :
  os_path.join d (default_name in_file index)
  = if String.eqb d "" || Str.endswith d "/"
    then d ++ default_name in_file index
    else d ++ String "/" (default_name in_file index).
Proof. reflexivity. Qed.

(** X1: the output path that [extract_image] derives lies in the
    directory of its input, and its file name is
    [extract{index}_{stem}.nii.gz] where the stem is the input's file name
    up to its first dot. *)
Theorem default_out_file_in_input_directory (in_file : string) (index : Z) :
  os_path.dirname (default_out_file in_file index) = os_path.dirname in_file
  /\ os_path.basename (default_out_file in_file index)
     = "extract" ++ Str.of_int index ++ "_"
       ++ Str.split_head "." (os_path.basename in_file) ++ ".nii.gz".
Proof.
  fold (default_name in_file index).
  change (default_out_file in_file index)
    with (os_path.join (os_path.dirname in_file) (default_name in_file index)).
  rewrite join_default_name.
  pose proof (default_name_no_slash in_file index) as Hfree.
  destruct (dirname_shape in_file)
    as [Hd | [(q & Hd & Hall) | (Hne & Hall & Hstrip)]]; cbv zeta in *.
  - rewrite Hd. simpl. now rewrite dirname_free, basename_free.
  - rewrite Hd. rewrite endswith_app, orb_true_r.
    rewrite app_assoc_str. change ("/" ++ default_name in_file index)
      with (String "/" (default_name in_file index)).
    rewrite dirname_split, basename_split by assumption.
    now rewrite Hall.
  - destruct (String.eqb (os_path.dirname in_file) "") eqn:He.
    { apply String.eqb_eq in He. contradiction. }
    destruct (Str.endswith (os_path.dirname in_file) "/") eqn:Hend.
    { apply endswith_spec in Hend as [q Hq]. rewrite Hq in Hstrip.
      now apply rstrip_no_trailing in Hstrip. }
    cbn [orb]. rewrite dirname_split, basename_split by assumption.
    now rewrite Hall.
Qed.

(** ** [extract_image] on any number of axes *)

Section ExtractMore.
Context `{ExternalTools}.

Lemma index_last_in_range (a : ndarray) (lead : list nat) (T : nat) (i : Z) :
  shape a = (lead ++ [T])%list -> - Z.of_nat T <= i < Z.of_nat T ->
  Z.of_nat T <= 2 ^ 63 ->
  index_last a i =
    Ok {| shape := lead;
          elems := pick (prod lead) T (Z.to_nat (i mod Z.of_nat T)) (elems a) |}.
Proof.
  intros Hs Hi Hlong. unfold index_last.
  rewrite fits_intp_true by lia. cbn [negb].
  rewrite Hs, rev_app_distr, removelast_last.
  cbn [rev app].
  replace (- Z.of_nat T <=? i)%Z with true by (symmetry; apply Z.leb_le; lia).
  replace (i <? Z.of_nat T)%Z with true by (symmetry; apply Z.ltb_lt; lia).
  cbn [andb]. do 3 f_equal.
  destruct (i <? 0)%Z eqn:Hneg.
  - apply Z.ltb_lt in Hneg. f_equal.
    apply Z.mod_unique with (q := -1); lia.
  - apply Z.ltb_ge in Hneg. f_equal. symmetry. apply Z.mod_small. lia.
Qed.

Lemma index_last_out_of_range (a : ndarray) (lead : list nat) (T : nat) (i : Z) :
  shape a = (lead ++ [T])%list -> i < - Z.of_nat T \/ Z.of_nat T <= i ->
  - 2 ^ 63 <= i < 2 ^ 63 ->
  index_last a i = Raise IndexError.
Proof.
  intros Hs Hi Hfits. unfold index_last.
  rewrite fits_intp_true by lia. cbn [negb].
  rewrite Hs, rev_app_distr. cbn [rev app].
  destruct (- Z.of_nat T <=? i)%Z eqn:H1; [|reflexivity].
  destruct (i <? Z.of_nat T)%Z eqn:H2; [|reflexivity].
  apply Z.leb_le in H1. apply Z.ltb_lt in H2. lia.
Qed.

(** X2: for an input array of any shape (d1, ..., dk, T) and an index in
    [-T, T) (a negative index counts from the end), [extract_image]
    hands [nibabel.save], with the given output path, an array of shape
    (d1, ..., dk) whose element at flat position [j] is the input element
    at flat position [j * T + index mod T], and the affine of the input;
    it returns the output path when the save succeeds and raises the
    error of the save, with the file system as it was, when it fails. *)
Theorem extract_image_drops_last_axis
    (w : World) (in_file out : string) (img : Image)
    (lead : list nat) (T : nat) (index : Z)
    (Hfile : files (fs w) !! in_file = Some (CNifti img))
    (Hshape : shape (get_data img) = (lead ++ [T])%list)
    (Hindex : - Z.of_nat T <= index < Z.of_nat T)
    (Hlong : Z.of_nat T <= 2 ^ 63) :
  exists arr : ndarray,
    shape arr = lead
    /\ length (elems arr) = prod lead
    /\ (forall j : nat,
          (j < prod lead)%nat ->
          nth j (elems arr) 0
          = nth (j * T + Z.to_nat (index mod Z.of_nat T))
                (elems (get_data img)) 0)
    /\ extract_image in_file index (Some out) w
       = let t := (trace w ++ [EvRead in_file; EvWrite out])%list in
         match nifti_save {| get_data := arr; get_affine := get_affine img |}
                 out (fs w) with
         | Ok f' => (Ok (PyStr out), {| fs := f'; trace := t |})
         | Raise e => (Raise e, {| fs := fs w; trace := t |})
         end.
Proof.
  rewrite extract_image_run. cbv zeta. cbn [default from_option id].
  rewrite Hfile, (index_last_in_range _ _ _ _ Hshape Hindex Hlong).
  exists {| shape := lead;
            elems := pick (prod lead) T (Z.to_nat (index mod Z.of_nat T))
                       (elems (get_data img)) |}.
  split; [reflexivity|]. cbn [shape elems].
  split; [apply length_pick|]. split.
  - intros j Hj. now apply nth_pick.
  - cbn [trace]. rewrite <- app_assoc.
    now destruct (nifti_save _ _ (fs w)).
Qed.

(** X3: with an index that fits a C [long] but lies outside [-T, T),
    [extract_image] raises [IndexError] after reading the input:
    [nibabel.save] is not called and the file system is the one it
    found. *)
Theorem extract_image_index_out_of_range
    (w : World) (in_file : string) (out_file : option string) (img : Image)
    (lead : list nat) (T : nat) (index : Z)
    (Hfile : files (fs w) !! in_file = Some (CNifti img))
    (Hshape : shape (get_data img) = (lead ++ [T])%list)
    (Hindex : index < - Z.of_nat T \/ Z.of_nat T <= index)
    (Hfits : - 2 ^ 63 <= index < 2 ^ 63) :
  extract_image in_file index out_file w
  = (Raise IndexError,
     {| fs := fs w; trace := (trace w ++ [EvRead in_file])%list |}).
Proof.
  rewrite extract_image_run. cbv zeta.
  now rewrite Hfile, (index_last_out_of_range _ _ _ _ Hshape Hindex Hfits).
Qed.

(** X4: a call of [extract_image] that raises, for whatever reason
    (input missing or not an image, index out of range, output path not
    writable), leaves every file and directory as it was. *)
Theorem extract_image_failure_changes_nothing
    (w : World) (in_file : string) (index : Z) (out_file : option string)
    (e : exn)
    (Hraise : fst (extract_image in_file index out_file w) = Raise e) :
  fs (snd (extract_image in_file index out_file w)) = fs w.
Proof.
  rewrite extract_image_run in *. cbv zeta in *.
  destruct (files (fs w) !! in_file) as [[t|c|img|]|]; try reflexivity.
  destruct (index_last _ _); [|reflexivity].
  destruct (nifti_save _ _ _); [discriminate Hraise | reflexivity].
Qed.

End ExtractMore.

Lemma extract_image_last_volume_witness :
  exists arr : ndarray,
    @extract_image sample_tools "/data/dwi.nii.gz" (-1)
      (Some "/data/last.nii") sample_world
    = (Ok (PyStr "/data/last.nii"),
       {| fs := put_file "/data/last.nii"
                  (CNifti {| get_data := arr;
                             get_affine := get_affine sample_image |})
                  sample_fs;
          trace := [EvRead "/data/dwi.nii.gz"; EvWrite "/data/last.nii"] |})
    /\ nth 0 (elems arr) 0 = 12 /\ nth 1 (elems arr) 0 = 22.
Proof.
  assert (- Z.of_nat 3 <= -1 < Z.of_nat 3) as Hindex by lia.
  assert (Z.of_nat 3 <= 2 ^ 63) as Hlong by lia.
  destruct (@extract_image_drops_last_axis sample_tools sample_world
              "/data/dwi.nii.gz" "/data/last.nii" sample_image
              [1; 2; 1]%nat 3 (-1)
              ltac:(vm_compute; reflexivity) eq_refl Hindex Hlong)
    as (arr & Hs & Hlen & Hnth & Hrun).
  assert (arr = {| shape := [1; 2; 1]%nat; elems := [12; 22] |}) as ->.
  { destruct arr as [sh [|a [|b [|c el]]]]; cbn [shape elems] in *;
      try discriminate Hlen. subst sh.
    pose proof (Hnth 0%nat ltac:(vm_compute; lia)) as H0.
    pose proof (Hnth 1%nat ltac:(vm_compute; lia)) as H1.
    vm_compute in H0, H1. now subst. }
  exists {| shape := [1; 2; 1]%nat; elems := [12; 22] |}.
  split; [|split; reflexivity].
  rewrite Hrun. vm_compute. reflexivity.
Defined.

Lemma extract_image_out_of_range_witness :
  @extract_image sample_tools "/data/dwi.nii.gz" 3 None sample_world
  = (Raise IndexError,
     {| fs := sample_fs; trace := [EvRead "/data/dwi.nii.gz"] |}).
Proof.
  assert (3 < - Z.of_nat 3 \/ Z.of_nat 3 <= 3) as Hindex by lia.
  assert (- 2 ^ 63 <= 3 < 2 ^ 63) as Hfits by lia.
  exact (@extract_image_index_out_of_range sample_tools sample_world
           "/data/dwi.nii.gz" None sample_image [1; 2; 1]%nat 3 3
           ltac:(vm_compute; reflexivity) eq_refl Hindex Hfits).
Defined.

Lemma extract_image_failure_witness :
  fs (snd (@extract_image sample_tools "/data/fibers.trk" 0 None
             sample_world)) = sample_fs.
Proof.
  exact (@extract_image_failure_changes_nothing sample_tools sample_world
           "/data/fibers.trk" 0 None (LibraryError "nibabel.load")
           ltac:(vm_compute; reflexivity)).
Defined.

(** ** b0 extraction: failures and what is not checked *)

Section B0More.
Context `{ExternalTools}.

(** X5: when [dwiextract] ends with status 0 and [mrmath] with another
    status [rc], [mrtrix_extract_b0s_and_mean_b0] raises
    [CalledProcessError rc] for the [mrmath] command; both commands are in
    the trace and the file system is the one the two commands left (what
    the first command wrote is not removed). *)
Theorem b0_extraction_second_command_fails
    (dwi b0s mean_b0 : string) (nb : option Z) (w : World)
    (f1 f2 : FS) (rc : Z)
    (Hfirst : spawn (dwiextract_cmd dwi b0s (default 1 nb)) (fs w)
              = (Some 0, f1))
    (Hsecond : spawn (mrmath_cmd b0s mean_b0 (default 1 nb)) f1
               = (Some rc, f2))
    (Hrc : rc <> 0) :
  mrtrix_extract_b0s_and_mean_b0 dwi b0s mean_b0 nb w
  = (Raise (CalledProcessError rc (mrmath_cmd b0s mean_b0 (default 1 nb))),
     {| fs := f2;
        trace := (trace w
                  ++ [EvSubprocess (dwiextract_cmd dwi b0s (default 1 nb));
                      EvSubprocess (mrmath_cmd b0s mean_b0 (default 1 nb))])%list
     |}).
Proof.
  rewrite b0_run. cbv zeta. rewrite Hfirst, Hsecond. cbn [fst snd].
  rewrite <- app_assoc.
  destruct rc; [contradiction| |]; reflexivity.
Qed.

(** X6: [mrtrix_extract_b0s_and_mean_b0] makes no check of its own: in
    every world, also when the dwi path is missing, the call of
    [subprocess.check_call] with the [dwiextract] command is the next
    action in the trace, and the call either returns [None] or raises the
    error of one of its two [check_call]s: [CalledProcessError] with a
    non-zero status, or the error of a command that was not started. *)
Theorem b0_extraction_checks_nothing
    (dwi b0s mean_b0 : string) (nb : option Z) (w : World) :
  let cmd_1 := dwiextract_cmd dwi b0s (default 1 nb) in
  let cmd_2 := mrmath_cmd b0s mean_b0 (default 1 nb) in
  let run := mrtrix_extract_b0s_and_mean_b0 dwi b0s mean_b0 nb w in
  (exists l, trace (snd run) = (trace w ++ EvSubprocess cmd_1 :: l)%list)
  /\ (fst run = Ok PyNone
      \/ (exists rc, rc <> 0
                     /\ (fst run = Raise (CalledProcessError rc cmd_1)
                         \/ fst run = Raise (CalledProcessError rc cmd_2)))
      \/ fst run = Raise (spawn_error cmd_1)
      \/ fst run = Raise (spawn_error cmd_2)).
Proof.
  intros cmd_1 cmd_2 run. subst run. rewrite b0_run. cbv zeta.
  fold cmd_1 cmd_2.
  destruct (spawn cmd_1 (fs w)) as [[[|rc|rc]|] f1].
  - destruct (spawn cmd_2 f1) as [[[|rc|rc]|] f2]; cbn [fst snd trace];
      (split; [eexists; now rewrite <- app_assoc |]).
    + now left.
    + right. left. exists (Z.pos rc). split; [discriminate | now right].
    + right. left. exists (Z.neg rc). split; [discriminate | now right].
    + right. right. now right.
  - split; [now exists [] |].
    right. left. exists (Z.pos rc). split; [discriminate | now left].
  - split; [now exists [] |].
    right. left. exists (Z.neg rc). split; [discriminate | now left].
  - split; [now exists [] |]. right. right. now left.
Qed.

End B0More.

Lemma b0_second_command_witness :
  fst (@mrtrix_extract_b0s_and_mean_b0 mrmath_fails_tools
         "/data/dwi.nii.gz" "/data/b0s.nii.gz" "/data/mean_b0.nii.gz" None
         sample_world)
  = Raise (CalledProcessError 2
             (mrmath_cmd "/data/b0s.nii.gz" "/data/mean_b0.nii.gz" 1)).
Proof.
  assert (2 <> 0) as Hrc by lia.
  erewrite (@b0_extraction_second_command_fails mrmath_fails_tools);
    [reflexivity | reflexivity | reflexivity | exact Hrc].
Defined.

(** ** The TRK converter step by step *)

Section TrkSteps.
Context `{ExternalTools}.

Lemma load_ok p w t w1 :
  nibabel_streamlines_load p w = (Ok t, w1) ->
  files (fs w) !! p = Some (CTract t)
  /\ w1 = {| fs := fs w; trace := (trace w ++ [EvRead p])%list |}.
Proof.
  unfold nibabel_streamlines_load, read_file, bind.
  destruct (files (fs w) !! p) as [[t0|c|img|]|]; try discriminate.
  intros Heq. injection Heq as <- <-. now split.
Qed.

Lemma write_ok p c w u w1 :
  write_file p c w = (Ok u, w1) ->
  can_write (fs w) p = true
  /\ w1 = {| fs := put_file p c (fs w);
             trace := (trace w ++ [EvWrite p])%list |}.
Proof.
  unfold write_file. destruct (can_write (fs w) p); [|discriminate].
  intros Heq. injection Heq as _ <-. now split.
Qed.

Lemma TRK_ok p w h w1 :
  tractconverter_TRK p w = (Ok h, w1) ->
  tc_TRK p (fs w) = None /\ h = p
  /\ w1 = {| fs := fs w; trace := (trace w ++ [EvRead p])%list |}.
Proof.
  unfold tractconverter_TRK. destruct (tc_TRK p (fs w)); [discriminate|].
  intros Heq. injection Heq as <- <-. now repeat split.
Qed.

Lemma TCK_create_ok p trk anat w h w1 :
  tractconverter_TCK_create p trk anat w = (Ok h, w1) ->
  exists f', tc_TCK_create p trk anat (fs w) = (None, f') /\ h = p
    /\ w1 = {| fs := f'; trace := (trace w ++ [EvWrite p])%list |}.
Proof.
  unfold tractconverter_TCK_create.
  destruct (tc_TCK_create p trk anat (fs w)) as [[e|] f']; [discriminate|].
  intros Heq. injection Heq as <- <-. now exists f'.
Qed.

Lemma convert_ok trk tck w u w1 :
  tractconverter_convert trk tck w = (Ok u, w1) ->
  exists f', tc_convert trk tck (fs w) = (None, f')
    /\ w1 = {| fs := f'; trace := (trace w ++ [EvConvert trk tck])%list |}.
Proof.
  unfold tractconverter_convert.
  destruct (tc_convert trk tck (fs w)) as [[e|] f']; [discriminate|].
  intros Heq. injection Heq as <-. now exists f'.
Qed.

Lemma rmtree_ok_dir d w w1 :
  shutil_rmtree d w = (Ok tt, w1) -> d ∈ dirs (fs w).
Proof.
  unfold shutil_rmtree. destruct (bool_decide (d ∈ dirs (fs w))) eqn:Hd;
    [|discriminate].
  intros _. now apply bool_decide_eq_true in Hd.
Qed.

(** X7: every run of [convert_connectomist_trk_fibers_to_tck] that returns
    went through exactly these steps: both inputs exist; a fresh directory
    [d] is made; the input loads as a tractogram [t] (a TRK or a TCK
    file); the loaded object, with [voxel_order = LPI] set in its header
    and its format, its other header entries and its streamlines left as
    they were, is saved as [d/tmp.trk]; tractconverter opens that copy,
    creates the output at the path with the [.tck] suffix with the dwi as
    anatomy, and converts; [d] is removed.  The trace gains these seven
    actions in this order and the returned value is the output path. *)
Theorem trk_conversion_steps
    (dwi trk tck : string) (td : option string) (w w' : World) (v : pyval)
    (Hrun : convert_connectomist_trk_fibers_to_tck dwi trk tck td w
            = (Ok v, w')) :
  exists (d : string) (t : TractFile) (f5 f6 : FS),
    let tmp := os_path.join d "tmp.trk" in
    let out := add_tck tck in
    let copy := set_header t "voxel_order" "LPI" in
    let f1 := {| files := files (fs w); dirs := {[d]} ∪ dirs (fs w) |} in
    let f3 := put_file tmp (CTract copy) f1 in
    isfile (fs w) dwi = true /\ isfile (fs w) trk = true
    /\ fst (tempfile_mkdtemp "tractconverter_" td w) = Ok d
    /\ files (fs w) !! trk = Some (CTract t)
    /\ header copy !! "voxel_order" = Some "LPI"
    /\ (forall k, k <> "voxel_order" -> header copy !! k = header t !! k)
    /\ format copy = format t
    /\ file_streamlines copy = file_streamlines t
    /\ tc_TRK tmp f3 = None
    /\ tc_TCK_create out tmp dwi f3 = (None, f5)
    /\ tc_convert tmp out f5 = (None, f6)
    /\ v = PyStr out
    /\ fs w' = remove_tree d f6
    /\ trace w' = (trace w ++ [EvMkdtemp d; EvRead trk; EvWrite tmp;
                               EvRead tmp; EvWrite out; EvConvert tmp out;
                               EvRmtree d])%list.
Proof.
  unfold convert_connectomist_trk_fibers_to_tck in Hrun. cbv zeta in Hrun.
  apply bind_ok in Hrun as (u & w0 & Hchk & Hrun).
  change (for_each [dwi; trk] _)
    with (for_each [dwi; trk] (check_exists msg_not_exist)) in Hchk.
  rewrite for_each_check in Hchk. simpl in Hchk.
  destruct (isfile (fs w) dwi) eqn:Hdwi; [|discriminate].
  destruct (isfile (fs w) trk) eqn:Htrk; [|discriminate].
  simpl in Hchk. injection Hchk as _ <-.
  apply bind_ok in Hrun as (d & w1 & Hmk & Hrun).
  apply bind_ok in Hrun as (t & w2 & Hload & Hrun).
  apply bind_ok in Hrun as (u2 & w3 & Hsave & Hrun).
  apply bind_ok in Hrun as (h1 & w4 & Htc & Hrun).
  apply bind_ok in Hrun as (h2 & w5 & Hcreate & Hrun).
  apply bind_ok in Hrun as (u3 & w6 & Hconv & Hrun).
  apply bind_ok in Hrun as ([] & w7 & Hrm & Hrun).
  injection Hrun as <- <-.
  pose proof Hmk as Hmk'. apply mkdtemp_ok in Hmk' as [_ ->].
  apply load_ok in Hload as [Hfile ->].
  apply write_ok in Hsave as [_ ->].
  apply TRK_ok in Htc as (Htc & -> & ->).
  apply TCK_create_ok in Hcreate as (f5 & Hcreate & -> & ->).
  apply convert_ok in Hconv as (f6 & Hconv & ->).
  apply rmtree_ok in Hrm as ->.
  cbn [fs trace] in *.
  exists d, t, f5, f6. cbv zeta.
  rewrite Hmk. repeat split; try assumption; try reflexivity.
  - apply lookup_insert_eq.
  - intros k Hk. cbn [set_header header]. now apply lookup_insert_ne.
  - cbn [trace]. now rewrite <- !app_assoc.
Qed.

(** X8: when both inputs exist and the temporary directory [d] has been
    made, but the TRK path holds no tractogram file (neither TRK nor
    TCK), the call raises the error of the loader; tractconverter is
    never reached, no file is written, and [d], which did not exist
    before, is still there. *)
Theorem trk_load_failure_leaves_tempdir
    (dwi trk tck : string) (td : option string) (w w1 : World)
    (d : string) (c : Content)
    (Hdwi : isfile (fs w) dwi = true)
    (Htrk : files (fs w) !! trk = Some c)
    (Hc : forall t, c <> CTract t)
    (Hmk : tempfile_mkdtemp "tractconverter_" td w = (Ok d, w1)) :
  convert_connectomist_trk_fibers_to_tck dwi trk tck td w
  = (Raise (streamlines_load_error trk),
     {| fs := {| files := files (fs w); dirs := {[d]} ∪ dirs (fs w) |};
        trace := (trace w ++ [EvMkdtemp d; EvRead trk])%list |})
  /\ (d ∉ dirs (fs w))
  /\ (d ∈ dirs (fs (snd (convert_connectomist_trk_fibers_to_tck
                           dwi trk tck td w)))).
Proof.
  assert (convert_connectomist_trk_fibers_to_tck dwi trk tck td w
          = (Raise (streamlines_load_error trk),
             {| fs := {| files := files (fs w); dirs := {[d]} ∪ dirs (fs w) |};
                trace := (trace w ++ [EvMkdtemp d; EvRead trk])%list |}))
    as Hrun.
  { unfold convert_connectomist_trk_fibers_to_tck. cbv zeta.
    unfold bind at 1.
    change (for_each [dwi; trk] _)
      with (for_each [dwi; trk] (check_exists msg_not_exist)).
    rewrite for_each_check. simpl.
    assert (isfile (fs w) trk = true) as Hisf.
    { unfold isfile. apply bool_decide_eq_true. rewrite Htrk. eauto. }
    rewrite Hdwi, Hisf. simpl. unfold bind at 1. rewrite Hmk.
    apply mkdtemp_ok in Hmk as [_ ->].
    unfold bind at 1. unfold nibabel_streamlines_load, read_file, bind.
    cbn [fs trace files]. rewrite Htrk.
    destruct c as [t|cs|img|]; cbn; rewrite <- ?app_assoc;
      try reflexivity.
    now destruct (Hc t). }
  rewrite Hrun. split; [reflexivity|].
  apply mkdtemp_ok in Hmk as [Hfresh _].
  unfold exists_path in Hfresh. apply orb_false_iff in Hfresh as [_ Hd].
  apply bool_decide_eq_false in Hd. split; [exact Hd|].
  cbn [snd fs dirs]. set_solver.
Qed.

End TrkSteps.

Lemma trk_conversion_steps_witness :
  exists d : string,
    trace (snd (@convert_connectomist_trk_fibers_to_tck sample_tools
                  "/data/dwi.nii.gz" "/data/fibers.trk" "/data/out" None
                  sample_world))
    = [EvMkdtemp d; EvRead "/data/fibers.trk";
       EvWrite (os_path.join d "tmp.trk"); EvRead (os_path.join d "tmp.trk");
       EvWrite "/data/out.tck";
       EvConvert (os_path.join d "tmp.trk") "/data/out.tck"; EvRmtree d].
Proof.
  destruct (@trk_conversion_steps sample_tools
              "/data/dwi.nii.gz" "/data/fibers.trk" "/data/out" None
              sample_world
              (snd (@convert_connectomist_trk_fibers_to_tck sample_tools
                      "/data/dwi.nii.gz" "/data/fibers.trk" "/data/out" None
                      sample_world))
              (PyStr "/data/out.tck") ltac:(vm_compute; reflexivity))
    as (d & t & f5 & f6 & H). cbv zeta in H.
  exists d. apply H.
Defined.

Lemma trk_load_failure_witness :
  fst (@convert_connectomist_trk_fibers_to_tck sample_tools
         "/data/dwi.nii.gz" "/data/broken.trk" "/data/out" None sample_world)
  = Raise (LibraryError "nibabel.streamlines.load").
Proof.
  assert (forall t, CRaw <> CTract t) as Hc by discriminate.
  destruct (@trk_load_failure_leaves_tempdir sample_tools
              "/data/dwi.nii.gz" "/data/broken.trk" "/data/out" None
              sample_world
              (snd (@tempfile_mkdtemp sample_tools "tractconverter_" None
                      sample_world))
              "/tmp/tractconverter_a1b2c3d4" CRaw
              ltac:(vm_compute; reflexivity) ltac:(vm_compute; reflexivity)
              Hc ltac:(vm_compute; reflexivity))
    as (Hrun & _).
  now rewrite Hrun.
Defined.

(** ** The VTK converter and the file system *)

Section MitkFrame.
Context `{ExternalTools}.

(** X9: [convert_mitk_vtk_fibers_to_tck] changes at most one path, the
    output path with its [.tck] suffix: every other file and every
    directory is as before, and a call that raises changes nothing. *)
Theorem convert_mitk_touches_output_only (vtk tck : string) (w : World) :
  let w' := snd (convert_mitk_vtk_fibers_to_tck vtk tck w) in
  dirs (fs w') = dirs (fs w)
  /\ (forall p, p <> add_tck tck -> files (fs w') !! p = files (fs w) !! p)
  /\ (forall e, fst (convert_mitk_vtk_fibers_to_tck vtk tck w) = Raise e ->
        fs w' = fs w).
Proof.
  unfold convert_mitk_vtk_fibers_to_tck, bind, os_path_isfile,
    vtkPolyDataReader_read, TckFile_save, write_file.
  cbv beta zeta.
  destruct (isfile (fs w) vtk); cbn [negb]; [|now repeat split].
  destruct (files (fs w) !! vtk) as [[t|cs|img|]|]; cbn [fs trace];
    destruct (can_write (fs w) (add_tck tck)); cbn;
    repeat split; try discriminate;
    intros p Hp; now apply lookup_insert_ne.
Qed.

End MitkFrame.

Lemma flip_xy_involutive (p : point) : flip_xy (flip_xy p) = p.
Proof.
  destruct p as [[x y] z]. unfold flip_xy. now rewrite !Z.opp_involutive.
Qed.

(** X10: the LPS to RAS affine of the converter is its own inverse:
    applied to the world coordinates of the tractogram it was attached
    to, it gives back the streamlines of the tractogram, which are the
    cells that have points. *)
Theorem lps_to_ras_is_an_involution (cells : list fiber) (m : vtk_mem) :
  (forall p : point,
      apply_affine lps_to_ras (apply_affine lps_to_ras p) = p)
  /\ to_world {| streamlines := to_world (mitk_tractogram cells m);
                 affine_to_rasmm := affine_to_rasmm (mitk_tractogram cells m) |}
     = streamlines (mitk_tractogram cells m)
  /\ streamlines (mitk_tractogram cells m) = List.filter nonempty cells.
Proof.
  assert (forall p, apply_affine lps_to_ras (apply_affine lps_to_ras p) = p)
    as Hinv.
  { intros p. rewrite !apply_lps_to_ras. apply flip_xy_involutive. }
  split; [exact Hinv|]. split; [|apply mitk_streamlines].
  unfold to_world. cbn [streamlines affine_to_rasmm].
  rewrite mitk_affine, map_map.
  rewrite <- (map_id (streamlines _)) at 2. apply map_ext. intros f.
  rewrite map_map. rewrite <- (map_id f) at 2. apply map_ext. exact Hinv.
Qed.

(** ** Failures of the FSL wrapper *)

Section FslFailure.
Context `{ExternalTools}.

(** X11: when the inputs exist and the FSL wrapper raises [e],
    [fslreorient2std] and [apply_mask] raise [e] unchanged, whatever
    files match the output pattern; the call of the wrapper, with
    [DEFAULT_FSL_PATH] when no configuration is given, is the only action
    added to the trace. *)
Theorem fsl_failure_propagates (w : World) (e : exn) :
  (forall inp out cfg f',
      isfile (fs w) inp = true ->
      FSLWrapper_call ["fslreorient2std"; inp; out]
        (default DEFAULT_FSL_PATH cfg) (fs w) = (Some e, f') ->
      fslreorient2std inp out cfg w
      = (Raise e,
         {| fs := f';
            trace := (trace w ++ [EvFSL ["fslreorient2std"; inp; out]
                                    (default DEFAULT_FSL_PATH cfg)])%list |}))
  /\ (forall inp root mask cfg f',
      isfile (fs w) inp = true -> isfile (fs w) mask = true ->
      FSLWrapper_call ["fslmaths"; inp; "-mas"; mask; root]
        (default DEFAULT_FSL_PATH cfg) (fs w) = (Some e, f') ->
      apply_mask inp root mask cfg w
      = (Raise e,
         {| fs := f';
            trace := (trace w ++ [EvFSL ["fslmaths"; inp; "-mas"; mask; root]
                                    (default DEFAULT_FSL_PATH cfg)])%list |})).
Proof.
  split.
  - intros inp out cfg f' Hin Hcall.
    rewrite fslreorient2std_run by assumption. cbv zeta. now rewrite Hcall.
  - intros inp root mask cfg f' Hin Hmask Hcall.
    rewrite apply_mask_run by assumption. cbv zeta. now rewrite Hcall.
Qed.

End FslFailure.

Lemma fsl_failure_witness :
  fst (@fslreorient2std failing_fsl_tools "/data/dwi.nii.gz" "/data/reo" None
         sample_world) = Raise (LibraryError "FSLWrapper")
  /\ fst (@apply_mask failing_fsl_tools "/data/dwi.nii.gz" "/data/masked"
            "/data/dwi.nii.gz" None sample_world)
     = Raise (LibraryError "FSLWrapper").
Proof.
  destruct (@fsl_failure_propagates failing_fsl_tools sample_world
              (LibraryError "FSLWrapper")) as [Hre Hma].
  split.
  - erewrite Hre; [reflexivity | vm_compute; reflexivity | reflexivity].
  - erewrite Hma; [reflexivity | vm_compute; reflexivity
                   | vm_compute; reflexivity | reflexivity].
Defined.
